(** * HX711 load-cell driver: bit-banged read, retry wrapper, sampling callback

    Shallow embedding of the driver source (one C file) and the properties
    of its raw protocol read, its retrying read and its periodic sampling
    callback.

    The hardware and the vendor SDK are the environment.  Every value the
    program reads from it (the DOUT pin, the connection state, the timer
    handle handed back by the scheduler) comes from an input oracle indexed
    by the number of reads made so far, so a statement quantified over all
    worlds covers every behaviour of the chip and of the SDK.  Everything
    the program does to the environment is appended to a log; the log also
    records, as ghost events, each entry of a function of the driver, so
    that calls can be counted and ordered. *)

From Stdlib Require Import ZArith List Bool Lia.
From Equations Require Import Equations.
From Equations.Prop Require Import Logic.
Import ListNotations.

Open Scope Z_scope.

Set Warnings "-abstract-large-number".

(* ===================================================================== *)
(** ** Machine integers *)
(* ===================================================================== *)

Definition INT32_MIN : Z := -2147483648.
Definition INT32_MAX : Z := 2147483647.

(** Conversion to [uint32_t], [int32_t] and [uint8_t]: wrap-around. *)
Definition to_uint32 (z : Z) : Z := z mod 4294967296.

Definition to_int32 (z : Z) : Z :=
  let u := z mod 4294967296 in
  if u <? 2147483648 then u else u - 4294967296.

Definition to_uint8 (z : Z) : Z := z mod 256.

(** [value <<= 1] on an [int32_t]. *)
Definition shl1_int32 (value : Z) : Z := to_int32 (Z.shiftl value 1).

(** [value |= 1] on an [int32_t]. *)
Definition or1_int32 (value : Z) : Z := to_int32 (Z.lor value 1).

(** [value |= 0xFF000000]: the literal does not fit [int], so it is
    [unsigned]; [value] is converted to [unsigned], or-ed, and the result is
    converted back to [int32_t]. *)
Definition or_top8_int32 (value : Z) : Z :=
  to_int32 (Z.lor (to_uint32 value) 4278190080).

(** [__builtin_bswap32]. *)
Definition bswap32 (z : Z) : Z :=
  let u := to_uint32 z in
  Z.lor (Z.lor (Z.shiftl (Z.land u 255) 24)
               (Z.shiftl (Z.land (Z.shiftr u 8) 255) 16))
        (Z.lor (Z.shiftl (Z.land (Z.shiftr u 16) 255) 8)
               (Z.land (Z.shiftr u 24) 255)).

(* ===================================================================== *)
(** ** Constants of the driver *)
(* ===================================================================== *)

Definition HX711_DEBUG : bool := true.
Definition HX711_SETTLE_TIME_US : Z := 100.
Definition HX711_CLOCK_HIGH_US : Z := 1.
Definition HX711_CLOCK_LOW_US : Z := 1.
Definition HX711_TIMEOUT_COUNT : nat := 50000.
Definition HX711_POWER_UP_TIME_MS : Z := 100.

(* ===================================================================== *)
(** ** The world: input oracles, log, static storage *)
(* ===================================================================== *)

Inductive pin : Type := HX711_SCK | HX711_DOUT.

(** The functions of the file, for the call log. *)
Inductive fn : Type :=
| F_hx711_power_up
| F_hx711_power_down
| F_hx711_init
| F_hx711_read_improved
| F_hx711_read_with_retry
| F_app_adcval1_timer_cb_handler_improved.

Definition fn_eqb (f g : fn) : bool :=
  match f, g with
  | F_hx711_power_up, F_hx711_power_up
  | F_hx711_power_down, F_hx711_power_down
  | F_hx711_init, F_hx711_init
  | F_hx711_read_improved, F_hx711_read_improved
  | F_hx711_read_with_retry, F_hx711_read_with_retry
  | F_app_adcval1_timer_cb_handler_improved,
    F_app_adcval1_timer_cb_handler_improved => true
  | _, _ => false
  end.

Inductive event : Type :=
| EvGpioSet (p : pin) (level : bool)   (* GPIO_SetActive / GPIO_SetInactive *)
| EvGpioGet (p : pin) (level : bool)   (* GPIO_GetPinStatus and what it saw *)
| EvDelayUs (us : Z)                   (* arch_asm_delay_us *)
| EvEnter (f : fn)                     (* ghost: entry of a driver function *)
| EvMsgAlloc                           (* KE_MSG_ALLOC_DYN *)
| EvMsgFree                            (* KE_MSG_FREE *)
| EvAttSet (v : Z)                     (* attmdb_att_set_value *)
| EvMsgSend (v : Z)                    (* KE_MSG_SEND *)
| EvStateGet (s : Z)                   (* ke_state_get(TASK_APP) *)
| EvTimer (handle : Z).                (* app_easy_timer and its handle *)

Record World : Type := mkWorld {
  (* inputs: the value seen by the k-th read of each kind *)
  dout_in : nat -> bool;
  ke_state_in : nat -> Z;
  timer_in : nat -> Z;
  (* how many reads of each kind were made *)
  n_dout : nat;
  n_state : nat;
  n_timer : nat;
  (* everything done so far, newest first *)
  log : list event;
  (* static storage of the callback, and the global sample *)
  adc_timer : Z;
  consecutive_errors : Z;
  adc_val_1 : Z
}.

(** The log in program order. *)
Definition history (w : World) : list event := rev' (log w).

(** A small state monad over the world. *)
Definition M (A : Type) : Type := World -> A * World.

Definition ret {A} (a : A) : M A := fun w => (a, w).

Definition bind {A B} (m : M A) (k : A -> M B) : M B :=
  fun w => let (a, w1) := m w in k a w1.

Notation "x <- c1 ;; c2" := (bind c1 (fun x => c2))
  (at level 61, c1 at next level, right associativity).
Notation "c1 ;; c2" := (bind c1 (fun _ => c2))
  (at level 61, right associativity).

Definition emit (e : event) : M unit := fun w =>
  (tt, mkWorld (dout_in w) (ke_state_in w) (timer_in w)
               (n_dout w) (n_state w) (n_timer w)
               (e :: log w)
               (adc_timer w) (consecutive_errors w) (adc_val_1 w)).

Definition enter (f : fn) : M unit := emit (EvEnter f).

(* ===================================================================== *)
(** ** SDK primitives *)
(* ===================================================================== *)

Definition GPIO_SetActive (p : pin) : M unit := emit (EvGpioSet p true).
Definition GPIO_SetInactive (p : pin) : M unit := emit (EvGpioSet p false).
Definition arch_asm_delay_us (us : Z) : M unit := emit (EvDelayUs us).

(** Only DOUT is an input of the driver; its level is the next oracle
    value. *)
Definition GPIO_GetPinStatus (p : pin) : M bool := fun w =>
  let b := dout_in w (n_dout w) in
  (b, mkWorld (dout_in w) (ke_state_in w) (timer_in w)
              (S (n_dout w)) (n_state w) (n_timer w)
              (EvGpioGet p b :: log w)
              (adc_timer w) (consecutive_errors w) (adc_val_1 w)).

Definition ke_state_get : M Z := fun w =>
  let s := ke_state_in w (n_state w) in
  (s, mkWorld (dout_in w) (ke_state_in w) (timer_in w)
              (n_dout w) (S (n_state w)) (n_timer w)
              (EvStateGet s :: log w)
              (adc_timer w) (consecutive_errors w) (adc_val_1 w)).

Definition app_easy_timer : M Z := fun w =>
  let h := timer_in w (n_timer w) in
  (h, mkWorld (dout_in w) (ke_state_in w) (timer_in w)
              (n_dout w) (n_state w) (S (n_timer w))
              (EvTimer h :: log w)
              (adc_timer w) (consecutive_errors w) (adc_val_1 w)).

Definition set_adc_timer (h : Z) : M unit := fun w =>
  (tt, mkWorld (dout_in w) (ke_state_in w) (timer_in w)
               (n_dout w) (n_state w) (n_timer w) (log w)
               h (consecutive_errors w) (adc_val_1 w)).

Definition set_consecutive_errors (c : Z) : M unit := fun w =>
  (tt, mkWorld (dout_in w) (ke_state_in w) (timer_in w)
               (n_dout w) (n_state w) (n_timer w) (log w)
               (adc_timer w) c (adc_val_1 w)).

Definition set_adc_val_1 (v : Z) : M unit := fun w =>
  (tt, mkWorld (dout_in w) (ke_state_in w) (timer_in w)
               (n_dout w) (n_state w) (n_timer w) (log w)
               (adc_timer w) (consecutive_errors w) v).

Definition get_consecutive_errors : M Z := fun w => (consecutive_errors w, w).
Definition get_adc_val_1 : M Z := fun w => (adc_val_1 w, w).

(* ===================================================================== *)
(** ** The driver *)
(* ===================================================================== *)

(** [hx711_is_ready]. *)
Definition hx711_is_ready : M bool :=
  b <- GPIO_GetPinStatus HX711_DOUT ;;
  ret (negb b).

(** [hx711_power_up]: the debug build reads DOUT once; the answer is not
    used. *)
Definition hx711_power_up : M unit :=
  enter F_hx711_power_up ;;
  GPIO_SetInactive HX711_SCK ;;
  arch_asm_delay_us (HX711_POWER_UP_TIME_MS * 1000) ;;
  if HX711_DEBUG
  then (_ <- GPIO_GetPinStatus HX711_DOUT ;; ret tt)
  else ret tt.

(** [hx711_power_down]. *)
Definition hx711_power_down : M unit :=
  enter F_hx711_power_down ;;
  GPIO_SetActive HX711_SCK ;;
  arch_asm_delay_us 60.

(** The loop of [hx711_init]:
    [while (!hx711_is_ready() && timeout > 0) { delay(10); timeout--; }].
    The readiness poll is the left operand, so it is made on every test. *)
Fixpoint init_wait (timeout : nat) : M nat :=
  ready <- hx711_is_ready ;;
  match timeout with
  | O => ret O
  | S t =>
      if negb ready
      then (arch_asm_delay_us 10 ;; init_wait t)
      else ret timeout
  end.

(** [hx711_init]. *)
Definition hx711_init : M unit :=
  enter F_hx711_init ;;
  GPIO_SetInactive HX711_SCK ;;
  hx711_power_up ;;
  _ <- init_wait HX711_TIMEOUT_COUNT ;;
  ret tt.

(** The ready-wait loop of [hx711_read_improved]:
    [while (DOUT) { if (timeout == 0) return INT32_MIN; timeout--; delay(1); }].
    The answer is [true] when the function returns from inside the loop.
    [timeout] is a [uint32_t] that starts at 50000 and is decremented only
    when it is not zero, so it never wraps: a [nat]. *)
Fixpoint wait_ready (timeout : nat) : M bool :=
  busy <- GPIO_GetPinStatus HX711_DOUT ;;
  if busy
  then match timeout with
       | O => ret true
       | S t => arch_asm_delay_us 1 ;; wait_ready t
       end
  else ret false.

(** The 24 iterations of the bit loop, [n] of them left to do. *)
Fixpoint read_bits (n : nat) (value : Z) : M Z :=
  match n with
  | O => ret value
  | S n' =>
      GPIO_SetActive HX711_SCK ;;
      arch_asm_delay_us HX711_CLOCK_HIGH_US ;;
      let value := shl1_int32 value in
      GPIO_SetInactive HX711_SCK ;;
      arch_asm_delay_us HX711_CLOCK_LOW_US ;;
      b <- GPIO_GetPinStatus HX711_DOUT ;;
      let value := if b then or1_int32 value else value in
      read_bits n' value
  end.

(** The sign-extension step at the end of the read. *)
Definition sign_extend24 (value : Z) : Z :=
  if negb (Z.land value 8388608 =? 0) then or_top8_int32 value else value.

(** [hx711_read_improved], giving the returned value together with the
    final content of the accumulator [value]. *)
Definition hx711_read_improved_acc : M (Z * Z) :=
  enter F_hx711_read_improved ;;
  let value := 0 in
  GPIO_SetInactive HX711_SCK ;;
  arch_asm_delay_us HX711_SETTLE_TIME_US ;;
  timed_out <- wait_ready HX711_TIMEOUT_COUNT ;;
  if (timed_out : bool) then ret (INT32_MIN, value)
  else
    value <- read_bits 24 value ;;
    GPIO_SetActive HX711_SCK ;;
    arch_asm_delay_us HX711_CLOCK_HIGH_US ;;
    GPIO_SetInactive HX711_SCK ;;
    arch_asm_delay_us HX711_CLOCK_LOW_US ;;
    arch_asm_delay_us 10 ;;
    _ <- GPIO_GetPinStatus HX711_DOUT ;;   (* the check has an empty body *)
    let value := sign_extend24 value in
    ret (value, value).

(** [hx711_read_improved]. *)
Definition hx711_read_improved : M Z :=
  r <- hx711_read_improved_acc ;;
  ret (fst r).

(* ===================================================================== *)
(** ** The retrying read *)
(* ===================================================================== *)

(** [result != INT32_MIN && result != INT32_MAX]. *)
Definition is_valid (result : Z) : bool :=
  negb (result =? INT32_MIN) && negb (result =? INT32_MAX).

(** The recovery of the retry loop: performed when the attempt timed out. *)
Definition recover (result : Z) : M unit :=
  if result =? INT32_MIN
  then (hx711_power_down ;;
        arch_asm_delay_us 1000 ;;
        hx711_power_up)
  else ret tt.

Section Retry.

(** The raw read the loop calls; [hx711_read_improved] in the driver. *)
Variable raw_read : M Z.

(** The [while (retry_count < max_retries)] loop.  [result] is [None]
    as long as the local variable has not been assigned.  [max_retries]
    is a [uint8_t] parameter and [retry_count] a [uint8_t] local. *)
Equations? retry_loop (max_retries retry_count : Z) (result : option Z)
    (w : World) : option Z * World
    by wf (Z.to_nat (to_uint8 max_retries - retry_count)) lt :=
  retry_loop max_retries retry_count result w with
      inspect (retry_count <? to_uint8 max_retries) := {
    | exist _ true guard =>
        let (r, w1) := raw_read w in
        if is_valid r then (Some r, w1)
        else
          let (_, w2) := recover r w1 in
          let retry_count' := to_uint8 (retry_count + 1) in
          let (_, w3) := arch_asm_delay_us 10000 w2 in
          retry_loop max_retries retry_count' (Some r) w3
    | exist _ false guard => (result, w) }.
Proof.
  apply Z.ltb_lt in guard.
  assert (Hmax : to_uint8 max_retries < 256)
    by (apply Z.mod_pos_bound; lia).
  assert (Hnext : retry_count + 1 <= to_uint8 (retry_count + 1)).
  { unfold to_uint8.
    destruct (Z_lt_le_dec (retry_count + 1) 0) as [Hneg | Hpos].
    - pose proof (Z.mod_pos_bound (retry_count + 1) 256 ltac:(lia)). lia.
    - rewrite Z.mod_small by lia. lia. }
  fold (to_uint8 (retry_count + 1)). fold (to_uint8 max_retries). lia.
Qed.

(** [hx711_read_with_retry], over the raw read it calls. *)
Definition hx711_read_with_retry_over (max_retries : Z)
  : World -> option Z * World :=
  fun w =>
    let (_, w0) := enter F_hx711_read_with_retry w in
    retry_loop max_retries 0 None w0.

End Retry.

(** [hx711_read_with_retry]. *)
Definition hx711_read_with_retry (max_retries : Z)
  : World -> option Z * World :=
  hx711_read_with_retry_over hx711_read_improved max_retries.

(* ===================================================================== *)
(** ** The periodic sampling callback *)
(* ===================================================================== *)

(** [static uint8_t max_consecutive_errors = 5], never written. *)
Definition max_consecutive_errors : Z := 5.

Definition KE_MSG_ALLOC_DYN : M unit := emit EvMsgAlloc.
Definition KE_MSG_FREE : M unit := emit EvMsgFree.
Definition attmdb_att_set_value (v : Z) : M unit := emit (EvAttSet v).
Definition KE_MSG_SEND (v : Z) : M unit := emit (EvMsgSend v).

Section Callback.

(** Constants of the SDK headers, which are not part of the file. *)
Variable EASY_TIMER_INVALID_TIMER : Z.
Variable APP_CONNECTED : Z.

(** The callback from the test of [hx_val] on. *)
Definition cb_after_read (hx_val : Z) : M unit :=
  if (hx_val =? INT32_MIN) || (hx_val =? INT32_MAX) then
    c <- get_consecutive_errors ;;
    set_consecutive_errors (to_uint8 (c + 1)) ;;
    c <- get_consecutive_errors ;;
    (if max_consecutive_errors <=? c
     then (hx711_init ;; set_consecutive_errors 0)
     else ret tt) ;;
    KE_MSG_FREE ;;
    s <- ke_state_get ;;
    if s =? APP_CONNECTED
    then (h <- app_easy_timer ;; set_adc_timer h)
    else ret tt
  else
    set_consecutive_errors 0 ;;
    set_adc_val_1 hx_val ;;
    v <- get_adc_val_1 ;;
    let big_endian_val := bswap32 v in
    attmdb_att_set_value big_endian_val ;;
    KE_MSG_SEND big_endian_val ;;
    s <- ke_state_get ;;
    if s =? APP_CONNECTED
    then (h <- app_easy_timer ;; set_adc_timer h)
    else set_adc_timer EASY_TIMER_INVALID_TIMER.

(** [app_adcval1_timer_cb_handler_improved].  The answer is [None] if the
    callback tests a value that was never assigned. *)
Definition app_adcval1_timer_cb_handler_improved (w : World)
  : option World :=
  let (_, w0) :=
    (enter F_app_adcval1_timer_cb_handler_improved ;; KE_MSG_ALLOC_DYN) w in
  match hx711_read_with_retry 3 w0 with
  | (Some hx_val, w1) => Some (snd (cb_after_read hx_val w1))
  | (None, _) => None
  end.

(** The world when the firmware starts: nothing read, nothing done, the
    statics at their initialisers. *)
Definition boot (dout : nat -> bool) (ke_state timers : nat -> Z) : World :=
  mkWorld dout ke_state timers 0 0 0 [] EASY_TIMER_INVALID_TIMER 0 0.

(** [n] expiries of the timer, one after the other. *)
Fixpoint cycles (n : nat) (w : World) : option World :=
  match n with
  | O => Some w
  | S n' =>
      match app_adcval1_timer_cb_handler_improved w with
      | Some w1 => cycles n' w1
      | None => None
      end
  end.

End Callback.

(* ===================================================================== *)
(** ** Observations on the log *)
(* ===================================================================== *)

(** The driver functions entered, in program order. *)
Fixpoint calls_of (h : list event) : list fn :=
  match h with
  | [] => []
  | EvEnter f :: h' => f :: calls_of h'
  | _ :: h' => calls_of h'
  end.

Definition calls (w : World) : list fn := calls_of (history w).

(** How many times [f] was entered. *)
Definition entered (f : fn) (w : World) : nat :=
  length (filter (fn_eqb f) (calls w)).

Definition is_clock_pulse (e : event) : bool :=
  match e with
  | EvGpioSet HX711_SCK true => true
  | _ => false
  end.

(** Rising edges driven on the clock line. *)
Definition clock_pulses (w : World) : nat :=
  length (filter is_clock_pulse (log w)).

Definition is_timer_request (e : event) : bool :=
  match e with
  | EvTimer _ => true
  | _ => false
  end.

(** Calls of [app_easy_timer]. *)
Definition timer_requests (w : World) : nat :=
  length (filter is_timer_request (log w)).

Definition is_delay (us : Z) (e : event) : bool :=
  match e with
  | EvDelayUs d => d =? us
  | _ => false
  end.

(** Busy-waits of exactly [us] microseconds. *)
Definition delays (us : Z) (w : World) : nat :=
  length (filter (is_delay us) (log w)).

(** Reads of the DOUT pin made so far. *)
Definition polls (w : World) : Z := Z.of_nat (n_dout w).

(** [w] after [k] more reads of DOUT and with the events [l] (newest first)
    added to the log: the only trace a run of the driver leaves. *)
Definition advance (w : World) (l : list event) (k : nat) : World :=
  mkWorld (dout_in w) (ke_state_in w) (timer_in w)
          (k + n_dout w) (n_state w) (n_timer w)
          (l ++ log w)
          (adc_timer w) (consecutive_errors w) (adc_val_1 w).

(** A run that entered the functions [cs] (in program order) and asked for
    no timer. *)
Definition effect (cs : list fn) (w w' : World) : Prop :=
  exists l k,
    w' = advance w l k /\
    calls_of l = rev cs /\
    filter is_timer_request l = [].

(* ===================================================================== *)
(** ** The frame on the wire *)
(* ===================================================================== *)

(** One iteration of the bit loop on the accumulator. *)
Definition shift_in (value : Z) (b : bool) : Z :=
  let value := shl1_int32 value in
  if b then or1_int32 value else value.

(** The accumulator after the bits [bits], first bit first. *)
Definition assemble (bits : list bool) (value : Z) : Z :=
  fold_left shift_in bits value.

(** The 24-bit two's-complement frame of [x], most significant bit first:
    what the chip puts on DOUT. *)
Definition encode24 (x : Z) : list bool :=
  map (fun i => Z.testbit x (23 - Z.of_nat i)) (seq 0 24).

(** The [n] levels the line shows from the [k]-th read on. *)
Definition line (w : World) (k n : nat) : list bool :=
  map (dout_in w) (seq k n).

(** The value of the bits [bits], first bit first, pushed into [acc]. *)
Definition frame_value (bits : list bool) (acc : Z) : Z :=
  fold_left (fun a b => 2 * a + Z.b2z b) bits acc.

(** The [n] bits of [x] from bit [n - 1] down to bit 0. *)
Definition encode (n : nat) (x : Z) : list bool :=
  map (fun i => Z.testbit x (Z.of_nat n - 1 - Z.of_nat i)) (seq 0 n).

(** The log (newest first) of a ready-wait that saw DOUT high on [n + 1]
    polls, waiting one microsecond after each of the first [n]. *)
Fixpoint busy_log (n : nat) : list event :=
  match n with
  | O => [EvGpioGet HX711_DOUT true]
  | S t => busy_log t ++ [EvDelayUs 1; EvGpioGet HX711_DOUT true]
  end.

(** The log (newest first) of a raw read that gives up. *)
Definition timeout_log : list event :=
  busy_log HX711_TIMEOUT_COUNT ++
  [EvDelayUs HX711_SETTLE_TIME_US; EvGpioSet HX711_SCK false;
   EvEnter F_hx711_read_improved].

(** The world after the prologue of the raw read: clock low, settle. *)
Definition settled (w : World) : World :=
  advance w [EvDelayUs HX711_SETTLE_TIME_US; EvGpioSet HX711_SCK false;
             EvEnter F_hx711_read_improved] 0.

(** The world after the epilogue of the raw read: gain-select pulse, 10 us,
    one read of DOUT for the check. *)
Definition checked (w : World) : World :=
  advance w [EvGpioGet HX711_DOUT (dout_in w (n_dout w)); EvDelayUs 10;
             EvDelayUs HX711_CLOCK_LOW_US; EvGpioSet HX711_SCK false;
             EvDelayUs HX711_CLOCK_HIGH_US; EvGpioSet HX711_SCK true] 1.

(** The world an attempt of the retry loop leaves when it has failed: the
    raw read, the recovery that goes with its result, the 10 ms pause. *)
Definition failed_attempt (raw_read : M Z) (w : World) : World :=
  let (r, w1) := raw_read w in
  snd (arch_asm_delay_us 10000 (snd (recover r w1))).

(** The world in which attempt number [j] (from 0) starts when the [j]
    attempts before it have failed. *)
Fixpoint after_failures (raw_read : M Z) (j : nat) (w : World) : World :=
  match j with
  | O => w
  | S j' => after_failures raw_read j' (failed_attempt raw_read w)
  end.

(** The result of attempt number [j] when the attempts before it failed. *)
Definition attempt_result (raw_read : M Z) (j : nat) (w : World) : Z :=
  fst (raw_read (after_failures raw_read j w)).

(** The world when the loop of [hx711_read_with_retry] starts. *)
Definition retry_entry (w : World) : World :=
  snd (enter F_hx711_read_with_retry w).

(** The functions one timed-out attempt enters, in program order: the raw
    read first, then the recovery pair. *)
Definition attempt_then_recovery : list fn :=
  [F_hx711_read_improved; F_hx711_power_down; F_hx711_power_up].

(** The order in which they would be entered if the recovery pair came
    before the attempt. *)
Definition recovery_then_attempt : list fn :=
  [F_hx711_power_down; F_hx711_power_up; F_hx711_read_improved].

(** A line that never goes low, and one that is low from the start. *)
Definition line_stuck_high : nat -> bool := fun _ => true.
Definition line_low : nat -> bool := fun _ => false.

(** A chip that is ready at once and then shifts out the frame of [x]. *)
Definition line_of_frame (x : Z) : nat -> bool :=
  fun k =>
    match k with
    | O => false
    | S i => nth i (encode24 x) false
    end.

(** A world of the driver alone: only the DOUT line matters. *)
Definition driver_world (dout : nat -> bool) : World :=
  mkWorld dout (fun _ => 0) (fun _ => 0) 0 0 0 [] 0 0 0.

(** A line that is low through the frame and high from the read of the
    check on (read number 25, counting the ready poll as number 0). *)
Definition line_rises_at_check : nat -> bool := fun k => Nat.leb 25 k.

(** A chip that lets two raw reads time out (and stays high at the read
    each power-up makes), then is ready and shifts out the frame of [x].
    Each failed attempt uses up the polls of its wait and the read of the
    power-up. *)
Definition two_timeouts_reads : nat := 2 * S (S HX711_TIMEOUT_COUNT).

Definition line_two_timeouts_then (x : Z) : nat -> bool :=
  fun k =>
    if (k <? two_timeouts_reads)%nat then true
    else line_of_frame x (k - two_timeouts_reads).

(** From the next read on, the line is high for ever. *)
Definition stuck_high (w : World) : Prop :=
  forall k, dout_in w (k + n_dout w) = true.

Definition is_enter (f : fn) (e : event) : bool :=
  match e with
  | EvEnter g => fn_eqb f g
  | _ => false
  end.

(** The world after the prologue of the callback: the message is
    allocated, the retrying read is about to be called. *)
Definition cb_entry (w : World) : World :=
  snd ((enter F_app_adcval1_timer_cb_handler_improved ;; KE_MSG_ALLOC_DYN) w).

(** A chip that answers one raw read (ready at once, 24 low bits, low at
    the check: reads 0 to 25) and never again. *)
Definition line_one_sample_then_stuck : nat -> bool := fun k => Nat.leb 26 k.

(** A connection that is up (state 3) when the first callback asks and
    down (state 2) from then on. *)
Definition connected_once (connected not_connected : Z) : nat -> Z :=
  fun k => match k with O => connected | S _ => not_connected end.

(* ===================================================================== *)
(** ** The rest of the driver, and what a run costs *)
(* ===================================================================== *)

(** [hx711_test_connectivity].  [initial_state] and [powered_down_state]
    are read and never used; the answer is [powered_up_state == true]. *)
Definition hx711_test_connectivity : M bool :=
  GPIO_SetInactive HX711_SCK ;;
  arch_asm_delay_us 100 ;;
  initial_state <- GPIO_GetPinStatus HX711_DOUT ;;
  hx711_power_down ;;
  arch_asm_delay_us 1000 ;;
  powered_down_state <- GPIO_GetPinStatus HX711_DOUT ;;
  hx711_power_up ;;
  arch_asm_delay_us 1000 ;;
  powered_up_state <- GPIO_GetPinStatus HX711_DOUT ;;
  ret (Bool.eqb powered_up_state true).

(** The events of the driver proper: GPIO, busy-waits, function entries. *)
Definition is_driver_event (e : event) : bool :=
  match e with
  | EvGpioSet _ _ | EvGpioGet _ _ | EvDelayUs _ | EvEnter _ => true
  | _ => false
  end.

(** Microseconds of busy-wait in a log. *)
Fixpoint elapsed_of (l : list event) : Z :=
  match l with
  | [] => 0
  | EvDelayUs us :: l' => us + elapsed_of l'
  | _ :: l' => elapsed_of l'
  end.

(** Microseconds the program has spent in [arch_asm_delay_us]. *)
Definition elapsed (w : World) : Z := elapsed_of (log w).

(** The level last driven on the clock line in a log (newest first). *)
Fixpoint last_sck (l : list event) : option bool :=
  match l with
  | [] => None
  | EvGpioSet HX711_SCK level :: _ => Some level
  | _ :: l' => last_sck l'
  end.

(** The level the clock line is at, if it has been driven at all. *)
Definition sck_level (w : World) : option bool := last_sck (log w).

(** The clock level after two runs in a row. *)
Definition then_sck (s1 s2 : option bool) : option bool :=
  match s2 with
  | Some level => Some level
  | None => s1
  end.

(** A run of the driver from [w] to [w']: [reads] reads of DOUT, [pulses]
    rising edges on the clock, [us] microseconds of busy-wait, the clock
    left at [sck] (if driven), and nothing but driver events logged. *)
Definition driver_run (w w' : World) (reads pulses : nat) (us : Z)
    (sck : option bool) : Prop :=
  exists l,
    w' = advance w l reads /\
    forallb is_driver_event l = true /\
    length (filter is_clock_pulse l) = pulses /\
    elapsed_of l = us /\
    last_sck l = sck.

Definition is_msg_alloc (e : event) : bool :=
  match e with EvMsgAlloc => true | _ => false end.
Definition is_msg_free (e : event) : bool :=
  match e with EvMsgFree => true | _ => false end.
Definition is_msg_send (e : event) : bool :=
  match e with EvMsgSend _ => true | _ => false end.
Definition is_att_set (e : event) : bool :=
  match e with EvAttSet _ => true | _ => false end.

(** How many events of a kind the log holds. *)
Definition count (p : event -> bool) (w : World) : nat :=
  length (filter p (log w)).

(** The longest a failed attempt of the retry loop can take: settle, a
    full wait, power-down, 1 ms, power-up, 10 ms. *)
Definition FAILED_ATTEMPT_US : Z := 161160.

(** A chip that is busy for [j] reads and ready from then on. *)
Definition line_ready_after (j : nat) : nat -> bool := fun k => Nat.ltb k j.
(** The good values of the raw read: a timeout or a 24-bit sample. *)
Definition timeout_or_sample (v : Z) : Prop :=
  v = INT32_MIN \/ -8388608 <= v <= 8388607.
(** A world for the callback: the line [dout], a connection state and a
    timer handle that never change, the error counter at [errors]. *)
Definition cb_world (dout : nat -> bool) (ke_state timer errors : Z)
  : World :=
  mkWorld dout (fun _ => ke_state) (fun _ => timer) 0 0 0 [] 0 errors 0.

(** A raw read that reports a communication error and touches nothing. *)
Definition raw_read_comm_error : M Z := fun w => (INT32_MAX, w).

(* ===================================================================== *)
(** ** Basic facts *)
(* ===================================================================== *)

Lemma advance_advance w l k l' k' :
  advance (advance w l k) l' k' = advance w (l' ++ l) (k' + k).
Proof.
  unfold advance; simpl.
  now rewrite app_assoc, Nat.add_assoc.
Qed.

Lemma advance_nil w : advance w [] 0 = w.
Proof. now destruct w. Qed.

Lemma calls_of_app l1 l2 : calls_of (l1 ++ l2) = calls_of l1 ++ calls_of l2.
Proof.
  induction l1 as [| e l1 IH]; [reflexivity |].
  destruct e; simpl; now rewrite IH.
Qed.

Lemma calls_of_rev l : calls_of (rev l) = rev (calls_of l).
Proof.
  induction l as [| e l IH]; [reflexivity |].
  simpl. rewrite calls_of_app, IH.
  destruct e; simpl; now rewrite ?app_nil_r.
Qed.

Lemma calls_advance w l k :
  calls (advance w l k) = calls w ++ rev (calls_of l).
Proof.
  unfold calls, history, rev'. rewrite <- !rev_alt. simpl.
  now rewrite rev_app_distr, calls_of_app, !calls_of_rev.
Qed.

Lemma effect_refl w : effect [] w w.
Proof. exists [], 0%nat. now rewrite advance_nil. Qed.

Lemma effect_trans cs1 cs2 w1 w2 w3 :
  effect cs1 w1 w2 -> effect cs2 w2 w3 -> effect (cs1 ++ cs2) w1 w3.
Proof.
  intros (l1 & k1 & -> & Hc1 & Ht1) (l2 & k2 & -> & Hc2 & Ht2).
  exists (l2 ++ l1), (k2 + k1)%nat. repeat split.
  - apply advance_advance.
  - now rewrite calls_of_app, rev_app_distr, Hc1, Hc2.
  - now rewrite filter_app, Ht1, Ht2.
Qed.

Lemma effect_calls cs w w' : effect cs w w' -> calls w' = calls w ++ cs.
Proof.
  intros (l & k & -> & Hc & _).
  now rewrite calls_advance, Hc, rev_involutive.
Qed.

Lemma effect_entered f cs w w' :
  effect cs w w' ->
  entered f w' = (entered f w + length (filter (fn_eqb f) cs))%nat.
Proof.
  intros H. unfold entered.
  now rewrite (effect_calls _ _ _ H), filter_app, length_app.
Qed.

Lemma effect_timer_requests cs w w' :
  effect cs w w' -> timer_requests w' = timer_requests w.
Proof.
  intros (l & k & -> & _ & Ht). unfold timer_requests. simpl.
  now rewrite filter_app, Ht.
Qed.

Lemma effect_statics cs w w' :
  effect cs w w' ->
  adc_timer w' = adc_timer w /\
  consecutive_errors w' = consecutive_errors w /\
  adc_val_1 w' = adc_val_1 w.
Proof. intros (l & k & -> & _). now simpl. Qed.

Lemma effect_inputs cs w w' :
  effect cs w w' ->
  dout_in w' = dout_in w /\ ke_state_in w' = ke_state_in w /\
  timer_in w' = timer_in w /\ n_state w' = n_state w /\
  n_timer w' = n_timer w /\ (n_dout w <= n_dout w')%nat.
Proof. intros (l & k & -> & _). simpl. repeat split. lia. Qed.

(** The primitives of the driver. *)
Lemma effect_set_active p w : effect [] w (snd (GPIO_SetActive p w)).
Proof. now exists [EvGpioSet p true], 0%nat. Qed.

Lemma effect_set_inactive p w : effect [] w (snd (GPIO_SetInactive p w)).
Proof. now exists [EvGpioSet p false], 0%nat. Qed.

Lemma effect_delay us w : effect [] w (snd (arch_asm_delay_us us w)).
Proof. now exists [EvDelayUs us], 0%nat. Qed.

Lemma effect_get p w : effect [] w (snd (GPIO_GetPinStatus p w)).
Proof. now exists [EvGpioGet p (dout_in w (n_dout w))], 1%nat. Qed.

Lemma effect_enter f w : effect [f] w (snd (enter f w)).
Proof. now exists [EvEnter f], 0%nat. Qed.

(** *** Unfolding the loops *)

Lemma wait_ready_unfold timeout w :
  wait_ready timeout w =
  let w1 := snd (GPIO_GetPinStatus HX711_DOUT w) in
  if dout_in w (n_dout w)
  then match timeout with
       | O => (true, w1)
       | S t => wait_ready t (snd (arch_asm_delay_us 1 w1))
       end
  else (false, w1).
Proof.
  destruct timeout; cbn [wait_ready]; unfold bind, GPIO_GetPinStatus;
    destruct (dout_in w (n_dout w)); reflexivity.
Qed.

Lemma init_wait_unfold timeout w :
  init_wait timeout w =
  let w1 := snd (GPIO_GetPinStatus HX711_DOUT w) in
  match timeout with
  | O => (O, w1)
  | S t =>
      if dout_in w (n_dout w)
      then init_wait t (snd (arch_asm_delay_us 10 w1))
      else (timeout, w1)
  end.
Proof.
  destruct timeout; cbn [init_wait]; unfold bind, hx711_is_ready, bind,
    GPIO_GetPinStatus, ret; [reflexivity |].
  destruct (dout_in w (n_dout w)); reflexivity.
Qed.

Lemma read_bits_unfold n value w :
  read_bits (S n) value w =
  let w1 := snd (arch_asm_delay_us HX711_CLOCK_HIGH_US
                   (snd (GPIO_SetActive HX711_SCK w))) in
  let w2 := snd (arch_asm_delay_us HX711_CLOCK_LOW_US
                   (snd (GPIO_SetInactive HX711_SCK w1))) in
  read_bits n (shift_in value (dout_in w (n_dout w)))
            (snd (GPIO_GetPinStatus HX711_DOUT w2)).
Proof. reflexivity. Qed.

(** *** What each function of the driver leaves behind *)

Lemma effect_wait_ready timeout w :
  effect [] w (snd (wait_ready timeout w)).
Proof.
  revert w. induction timeout as [| t IH]; intros w;
    rewrite wait_ready_unfold; cbv zeta;
    destruct (dout_in w (n_dout w)); try apply effect_get.
  eapply (effect_trans [] []); [apply effect_get |].
  eapply (effect_trans [] []); [apply effect_delay | apply IH].
Qed.

Lemma effect_init_wait timeout w :
  effect [] w (snd (init_wait timeout w)).
Proof.
  revert w. induction timeout as [| t IH]; intros w;
    rewrite init_wait_unfold; cbv zeta; [apply effect_get |].
  destruct (dout_in w (n_dout w)); try apply effect_get.
  eapply (effect_trans [] []); [apply effect_get |].
  eapply (effect_trans [] []); [apply effect_delay | apply IH].
Qed.

Lemma effect_read_bits n value w :
  effect [] w (snd (read_bits n value w)).
Proof.
  revert value w. induction n as [| n IH]; intros value w.
  - apply effect_refl.
  - rewrite read_bits_unfold. cbv zeta.
    eapply (effect_trans [] []); [| apply IH].
    eapply (effect_trans [] []); [| apply effect_get].
    eapply (effect_trans [] []); [| apply effect_delay].
    eapply (effect_trans [] []); [| apply effect_set_inactive].
    eapply (effect_trans [] []); [apply effect_set_active | apply effect_delay].
Qed.

Lemma effect_power_down w :
  effect [F_hx711_power_down] w (snd (hx711_power_down w)).
Proof.
  now exists [EvDelayUs 60; EvGpioSet HX711_SCK true;
              EvEnter F_hx711_power_down], 0%nat.
Qed.

Lemma effect_power_up w :
  effect [F_hx711_power_up] w (snd (hx711_power_up w)).
Proof.
  now exists [EvGpioGet HX711_DOUT (dout_in w (n_dout w));
              EvDelayUs (HX711_POWER_UP_TIME_MS * 1000);
              EvGpioSet HX711_SCK false;
              EvEnter F_hx711_power_up], 1%nat.
Qed.

Lemma effect_bind {A B} cs1 cs2 (m : M A) (k : A -> M B) w :
  effect cs1 w (snd (m w)) ->
  (forall a w1, effect cs2 w1 (snd (k a w1))) ->
  effect (cs1 ++ cs2) w (snd (bind m k w)).
Proof.
  unfold bind. destruct (m w) as [a w1]. cbn [snd].
  intros H1 H2. eapply effect_trans; [exact H1 | apply H2].
Qed.

Lemma effect_ret {A} (a : A) w : effect [] w (snd (ret a w)).
Proof. apply effect_refl. Qed.

Lemma effect_init w :
  effect [F_hx711_init; F_hx711_power_up] w (snd (hx711_init w)).
Proof.
  unfold hx711_init.
  apply (effect_bind [F_hx711_init] [F_hx711_power_up]);
    [apply effect_enter | intros _ w0].
  apply (effect_bind [] [F_hx711_power_up]);
    [apply effect_set_inactive | intros _ w1].
  apply (effect_bind [F_hx711_power_up] []);
    [apply effect_power_up | intros _ w2].
  apply (effect_bind [] []); [apply effect_init_wait | intros t w3].
  apply effect_ret.
Qed.

(** *** The ready-wait *)

(** The line stays high for the whole budget: the wait gives up after
    [timeout + 1] polls and [timeout] delays. *)
Lemma wait_ready_busy timeout w :
  (forall k, (k <= timeout)%nat -> dout_in w (k + n_dout w) = true) ->
  wait_ready timeout w = (true, advance w (busy_log timeout) (S timeout)).
Proof.
  revert w. induction timeout as [| t IH]; intros w H;
    rewrite wait_ready_unfold; cbv zeta;
    pose proof (H 0%nat ltac:(lia)) as H0; cbn [Nat.add] in H0;
    unfold GPIO_GetPinStatus; cbn [snd]; rewrite !H0.
  - reflexivity.
  - rewrite IH.
    + f_equal. unfold advance; cbn [busy_log]. simpl.
      rewrite <- app_assoc. simpl. f_equal. lia.
    + intros k Hk. simpl. rewrite Nat.add_succ_r. apply (H (S k)). lia.
Qed.

(** The line goes low on poll number [j] (from 0) of the wait: the wait
    ends there, with [j + 1] polls made. *)
Lemma wait_ready_at timeout j w :
  (j <= timeout)%nat ->
  (forall k, (k < j)%nat -> dout_in w (k + n_dout w) = true) ->
  dout_in w (j + n_dout w) = false ->
  exists w',
    wait_ready timeout w = (false, w') /\
    dout_in w' = dout_in w /\ n_dout w' = (S j + n_dout w)%nat.
Proof.
  revert timeout w. induction j as [| j IH]; intros timeout w Hj Hbusy Hlow;
    rewrite wait_ready_unfold; cbv zeta.
  - simpl in Hlow. rewrite Hlow. eexists; repeat split.
  - pose proof (Hbusy 0%nat ltac:(lia)) as H0; cbn [Nat.add] in H0; rewrite H0.
    destruct timeout as [| t]; [lia |].
    destruct (IH t (snd (arch_asm_delay_us 1
                           (snd (GPIO_GetPinStatus HX711_DOUT w)))))
      as (w' & E & Hd & Hn).
    + lia.
    + intros k Hk. simpl. rewrite Nat.add_succ_r. apply (Hbusy (S k)). lia.
    + simpl. rewrite Nat.add_succ_r. exact Hlow.
    + exists w'. rewrite E. repeat split; [exact Hd |].
      rewrite Hn. simpl. lia.
Qed.

(** *** The bit loop *)

Lemma read_bits_inputs n value w :
  dout_in (snd (read_bits n value w)) = dout_in w /\
  n_dout (snd (read_bits n value w)) = (n + n_dout w)%nat.
Proof.
  revert value w. induction n as [| n IH]; intros value w.
  - now split.
  - rewrite read_bits_unfold. cbv zeta.
    destruct (IH (shift_in value (dout_in w (n_dout w)))
                 (snd (GPIO_GetPinStatus HX711_DOUT
                   (snd (arch_asm_delay_us HX711_CLOCK_LOW_US
                     (snd (GPIO_SetInactive HX711_SCK
                       (snd (arch_asm_delay_us HX711_CLOCK_HIGH_US
                         (snd (GPIO_SetActive HX711_SCK w)))))))))))
      as [Hd Hn].
    rewrite Hd, Hn. simpl. split; [reflexivity | lia].
Qed.

(** The accumulator after the loop is the fold of [shift_in] over the
    levels the line showed, one per iteration. *)
Lemma read_bits_assemble n value w :
  fst (read_bits n value w) = assemble (line w (n_dout w) n) value.
Proof.
  revert value w. induction n as [| n IH]; intros value w.
  - reflexivity.
  - rewrite read_bits_unfold. cbv zeta. rewrite IH. reflexivity.
Qed.

(** *** Arithmetic of the accumulator *)

Lemma to_int32_small z :
  -2147483648 <= z < 2147483648 -> to_int32 z = z.
Proof.
  intros H. unfold to_int32.
  destruct (Z_lt_le_dec z 0) as [Hneg | Hpos].
  - replace (z mod 4294967296) with (z + 4294967296).
    + destruct (Z.ltb_spec (z + 4294967296) 2147483648); lia.
    + apply (Z.mod_unique _ _ (-1)); lia.
  - rewrite Z.mod_small by lia.
    destruct (Z.ltb_spec z 2147483648); lia.
Qed.

Lemma lor_disjoint a b : Z.land a b = 0 -> Z.lor a b = a + b.
Proof.
  intros H. rewrite <- (Z.lxor_lor _ _ H). symmetry.
  now apply Z.add_nocarry_lxor.
Qed.

Lemma shift_in_no_wrap value b :
  0 <= value < 1073741824 ->
  shift_in value b = 2 * value + Z.b2z b.
Proof.
  intros H. unfold shift_in, shl1_int32, or1_int32.
  rewrite Z.shiftl_mul_pow2 by lia. change (2 ^ 1) with 2.
  rewrite (to_int32_small (value * 2)) by lia.
  destruct b; cbn [Z.b2z]; [| lia].
  rewrite lor_disjoint.
  - rewrite to_int32_small; lia.
  - change 1 with (Z.ones 1). rewrite Z.land_ones by lia.
    change (2 ^ 1) with 2. apply Z.mod_mul. lia.
Qed.

Lemma frame_value_bounds bits acc :
  0 <= acc ->
  acc * 2 ^ Z.of_nat (length bits) <= frame_value bits acc
    < (acc + 1) * 2 ^ Z.of_nat (length bits).
Proof.
  revert acc. induction bits as [| b bits IH]; intros acc H.
  - cbn. lia.
  - cbn [frame_value fold_left length].
    rewrite Nat2Z.inj_succ, Z.pow_succ_r by lia.
    assert (Hb : 0 <= Z.b2z b <= 1) by (destruct b; cbn; lia).
    specialize (IH (2 * acc + Z.b2z b) ltac:(lia)).
    unfold frame_value in IH.
    assert (0 < 2 ^ Z.of_nat (length bits)) by (apply Z.pow_pos_nonneg; lia).
    nia.
Qed.

(** As long as the accumulator stays below 2^31 the loop computes the
    plain binary value of the bits: no iteration wraps. *)
Lemma assemble_no_wrap bits acc :
  0 <= acc ->
  (acc + 1) * 2 ^ Z.of_nat (length bits) <= 2147483648 ->
  assemble bits acc = frame_value bits acc.
Proof.
  revert acc. induction bits as [| b bits IH]; intros acc H0 H; [reflexivity |].
  cbn [assemble frame_value fold_left].
  cbn [length] in H. rewrite Nat2Z.inj_succ, Z.pow_succ_r in H by lia.
  assert (Hp : 0 < 2 ^ Z.of_nat (length bits)) by (apply Z.pow_pos_nonneg; lia).
  assert (Hb : 0 <= Z.b2z b <= 1) by (destruct b; cbn; lia).
  rewrite shift_in_no_wrap by nia.
  apply IH; nia.
Qed.

Lemma assemble24_range bits :
  length bits = 24%nat -> 0 <= assemble bits 0 < 16777216.
Proof.
  intros Hlen.
  rewrite assemble_no_wrap by (rewrite ?Hlen; cbn; lia).
  pose proof (frame_value_bounds bits 0 ltac:(lia)) as H.
  rewrite Hlen in H. cbn in H. lia.
Qed.

Lemma encode_succ n x :
  encode (S n) x = Z.testbit x (Z.of_nat n) :: encode n x.
Proof.
  unfold encode. rewrite <- cons_seq, <- seq_shift. cbn [map].
  rewrite map_map. f_equal.
  - f_equal. lia.
  - apply map_ext. intros i. f_equal. lia.
Qed.

Lemma mod_pow2_succ x n :
  0 <= n ->
  x mod 2 ^ (Z.succ n) = x mod 2 ^ n + 2 ^ n * Z.b2z (Z.testbit x n).
Proof.
  intros Hn. rewrite Z.pow_succ_r by lia.
  rewrite (Z.mul_comm 2), Z.rem_mul_r by (try apply Z.pow_nonzero; lia).
  now rewrite Z.testbit_spec' by lia.
Qed.

(** Pushing the [n] low bits of [x], high bit first, into [acc]. *)
Lemma frame_value_encode n x acc :
  frame_value (encode n x) acc = acc * 2 ^ Z.of_nat n + x mod 2 ^ Z.of_nat n.
Proof.
  revert acc. induction n as [| n IH]; intros acc.
  - cbn. rewrite Z.mod_1_r. lia.
  - rewrite encode_succ. cbn [frame_value fold_left].
    fold (frame_value (encode n x) (2 * acc + Z.b2z (Z.testbit x (Z.of_nat n)))).
    rewrite IH, Nat2Z.inj_succ, mod_pow2_succ by lia.
    rewrite Z.pow_succ_r by lia. ring.
Qed.

Lemma encode24_encode x : encode24 x = encode 24 x.
Proof. reflexivity. Qed.

Lemma length_encode n x : length (encode n x) = n.
Proof. unfold encode. now rewrite length_map, length_seq. Qed.

Lemma assemble_encode24 x : assemble (encode24 x) 0 = x mod 16777216.
Proof.
  rewrite encode24_encode, assemble_no_wrap
    by (try rewrite length_encode; cbn; lia).
  rewrite frame_value_encode. reflexivity.
Qed.

(** *** Sign extension *)

Lemma land_bit23 v :
  0 <= v < 16777216 -> (Z.land v 8388608 =? 0) = (v <? 8388608).
Proof.
  intros H.
  assert (E : Z.land v 8388608 = 8388608 * Z.b2z (Z.testbit v 23)).
  { apply Z.bits_inj'. intros n Hn.
    rewrite Z.land_spec. change 8388608 with (2 ^ 23).
    rewrite Z.pow2_bits_eqb by lia.
    destruct (Z.eqb_spec 23 n) as [<- | Hne].
    - rewrite andb_true_r. destruct (Z.testbit v 23); cbn [Z.b2z].
      + rewrite Z.mul_1_r. rewrite Z.pow2_bits_eqb by lia. reflexivity.
      + rewrite Z.mul_0_r. reflexivity.
    - rewrite andb_false_r. destruct (Z.testbit v 23); cbn [Z.b2z].
      + rewrite Z.mul_1_r, Z.pow2_bits_eqb by lia.
        symmetry. now apply Z.eqb_neq.
      + rewrite Z.mul_0_r. now rewrite Z.bits_0. }
  rewrite E, Z.testbit_spec' by lia. change (2 ^ 23) with 8388608.
  destruct (Z.ltb_spec v 8388608) as [Hlt | Hge].
  - rewrite Z.div_small by lia. reflexivity.
  - replace (v / 8388608) with 1.
    + reflexivity.
    + apply (Z.div_unique _ _ _ (v - 8388608)); lia.
Qed.

Lemma land_top8 v : 0 <= v < 16777216 -> Z.land v 4278190080 = 0.
Proof.
  intros H. apply Z.bits_inj'. intros n Hn.
  rewrite Z.land_spec, Z.bits_0.
  change 4278190080 with (Z.shiftl 255 24).
  destruct (Z_lt_le_dec n 24) as [Hlo | Hhi].
  - rewrite Z.shiftl_spec_low by lia. apply andb_false_r.
  - assert (Hv : Z.testbit v n = false); [| now rewrite Hv].
    apply Z.testbit_false; [lia |].
    rewrite Z.div_small; [reflexivity |].
    split; [lia |].
    apply Z.lt_le_trans with (2 ^ 24); [cbn; lia |].
    apply Z.pow_le_mono_r; lia.
Qed.

(** On a 24-bit accumulator the sign-extension step subtracts 2^24 exactly
    when bit 23 is set. *)
Lemma sign_extend24_spec v :
  0 <= v < 16777216 ->
  sign_extend24 v = if v <? 8388608 then v else v - 16777216.
Proof.
  intros H. unfold sign_extend24. rewrite land_bit23 by exact H.
  destruct (Z.ltb_spec v 8388608) as [Hlt | Hge]; cbn [negb]; [reflexivity |].
  unfold or_top8_int32, to_uint32.
  rewrite Z.mod_small by lia.
  rewrite lor_disjoint by (now apply land_top8).
  unfold to_int32.
  rewrite Z.mod_small by lia.
  destruct (Z.ltb_spec (v + 4278190080) 2147483648); lia.
Qed.

Lemma sign_extend24_range v :
  0 <= v < 16777216 -> -8388608 <= sign_extend24 v <= 8388607.
Proof.
  intros H. rewrite sign_extend24_spec by exact H.
  destruct (Z.ltb_spec v 8388608); lia.
Qed.

Lemma sign_extend24_mod x :
  -8388608 <= x <= 8388607 -> sign_extend24 (x mod 16777216) = x.
Proof.
  intros H.
  rewrite sign_extend24_spec by (apply Z.mod_pos_bound; lia).
  destruct (Z_lt_le_dec x 0) as [Hneg | Hpos].
  - replace (x mod 16777216) with (x + 16777216)
      by (apply (Z.mod_unique _ _ (-1)); lia).
    destruct (Z.ltb_spec (x + 16777216) 8388608); lia.
  - rewrite Z.mod_small by lia.
    destruct (Z.ltb_spec x 8388608); lia.
Qed.

(** *** The raw read *)

Lemma read_improved_acc_unfold w :
  hx711_read_improved_acc w =
  let (timed_out, w1) := wait_ready HX711_TIMEOUT_COUNT (settled w) in
  if timed_out then ((INT32_MIN, 0), w1)
  else
    let (value, w2) := read_bits 24 0 w1 in
    ((sign_extend24 value, sign_extend24 value), checked w2).
Proof.
  unfold hx711_read_improved_acc, bind.
  change (let (_, w1) := enter F_hx711_read_improved w in
          let (_, w2) := GPIO_SetInactive HX711_SCK w1 in
          let (_, w3) := arch_asm_delay_us HX711_SETTLE_TIME_US w2 in
          let (timed_out, w4) := wait_ready HX711_TIMEOUT_COUNT w3 in
          (if timed_out
           then ret (INT32_MIN, 0)
           else fun w5 =>
             let (value, w6) := read_bits 24 0 w5 in
             let (_, w7) := GPIO_SetActive HX711_SCK w6 in
             let (_, w8) := arch_asm_delay_us HX711_CLOCK_HIGH_US w7 in
             let (_, w9) := GPIO_SetInactive HX711_SCK w8 in
             let (_, w10) := arch_asm_delay_us HX711_CLOCK_LOW_US w9 in
             let (_, w11) := arch_asm_delay_us 10 w10 in
             let (_, w12) := GPIO_GetPinStatus HX711_DOUT w11 in
             ret (sign_extend24 value, sign_extend24 value) w12) w4)
    with (let (timed_out, w4) := wait_ready HX711_TIMEOUT_COUNT (settled w) in
          (if timed_out
           then ret (INT32_MIN, 0)
           else fun w5 =>
             let (value, w6) := read_bits 24 0 w5 in
             ret (sign_extend24 value, sign_extend24 value) (checked w6)) w4).
  destruct (wait_ready HX711_TIMEOUT_COUNT (settled w)) as [[|] w1];
    reflexivity.
Qed.

Lemma read_improved_unfold w :
  hx711_read_improved w =
  let (timed_out, w1) := wait_ready HX711_TIMEOUT_COUNT (settled w) in
  if timed_out then (INT32_MIN, w1)
  else
    let (value, w2) := read_bits 24 0 w1 in
    (sign_extend24 value, checked w2).
Proof.
  unfold hx711_read_improved, bind. rewrite read_improved_acc_unfold.
  destruct (wait_ready HX711_TIMEOUT_COUNT (settled w)) as [[|] w1];
    [reflexivity |].
  destruct (read_bits 24 0 w1); reflexivity.
Qed.

Lemma effect_settled w : effect [F_hx711_read_improved] w (settled w).
Proof. now eexists _, _. Qed.

Lemma effect_checked w : effect [] w (checked w).
Proof. now eexists _, _. Qed.

Lemma effect_read_improved w :
  effect [F_hx711_read_improved] w (snd (hx711_read_improved w)).
Proof.
  rewrite read_improved_unfold.
  pose proof (effect_wait_ready HX711_TIMEOUT_COUNT (settled w)) as Hw.
  destruct (wait_ready HX711_TIMEOUT_COUNT (settled w)) as [[|] w1];
    cbn [snd] in *.
  - eapply (effect_trans [F_hx711_read_improved] []);
      [apply effect_settled | exact Hw].
  - pose proof (effect_read_bits 24 0 w1) as Hb.
    destruct (read_bits 24 0 w1) as [value w2]; cbn [snd] in *.
    eapply (effect_trans [F_hx711_read_improved] []);
      [apply effect_settled |].
    eapply (effect_trans [] []); [exact Hw |].
    eapply (effect_trans [] []); [exact Hb | apply effect_checked].
Qed.

(** The raw read either gives up or returns the sign-extended accumulator
    of a full 24-bit frame. *)
Lemma read_improved_cases w :
  fst (hx711_read_improved w) = INT32_MIN \/
  exists bits, length bits = 24%nat /\
    fst (hx711_read_improved w) = sign_extend24 (assemble bits 0).
Proof.
  rewrite read_improved_unfold.
  destruct (wait_ready HX711_TIMEOUT_COUNT (settled w)) as [[|] w1];
    [now left | right].
  pose proof (read_bits_assemble 24 0 w1) as Hb.
  destruct (read_bits 24 0 w1) as [value w2]; cbn [fst] in *.
  exists (line w1 (n_dout w1) 24). split; [| now rewrite Hb].
  unfold line. now rewrite length_map, length_seq.
Qed.

(** The raw read when the line is high on every poll of the budget. *)
Lemma read_improved_acc_busy w :
  (forall k, (k <= HX711_TIMEOUT_COUNT)%nat ->
             dout_in w (k + n_dout w) = true) ->
  hx711_read_improved_acc w =
  ((INT32_MIN, 0), advance w timeout_log (S HX711_TIMEOUT_COUNT)).
Proof.
  intros H. rewrite read_improved_acc_unfold, wait_ready_busy by exact H.
  unfold settled. rewrite advance_advance.
  unfold timeout_log. now rewrite Nat.add_0_r.
Qed.

Lemma read_improved_busy w :
  (forall k, (k <= HX711_TIMEOUT_COUNT)%nat ->
             dout_in w (k + n_dout w) = true) ->
  hx711_read_improved w =
  (INT32_MIN, advance w timeout_log (S HX711_TIMEOUT_COUNT)).
Proof.
  intros H. unfold hx711_read_improved, bind.
  now rewrite read_improved_acc_busy by exact H.
Qed.

(** The raw read when the line goes low on poll [j] of the wait: the value
    is the sign-extended frame made of the next 24 levels of the line. *)
Lemma read_improved_ready j w :
  (j <= HX711_TIMEOUT_COUNT)%nat ->
  (forall k, (k < j)%nat -> dout_in w (k + n_dout w) = true) ->
  dout_in w (j + n_dout w) = false ->
  fst (hx711_read_improved w) =
  sign_extend24 (assemble (line w (S j + n_dout w) 24) 0).
Proof.
  intros Hj Hbusy Hlow. rewrite read_improved_unfold.
  destruct (wait_ready_at HX711_TIMEOUT_COUNT j (settled w) Hj Hbusy Hlow)
    as (w1 & E & Hd & Hn).
  rewrite E.
  pose proof (read_bits_assemble 24 0 w1) as Hb.
  destruct (read_bits 24 0 w1) as [value w2]; cbn [fst] in *.
  rewrite Hb. unfold line. now rewrite Hd, Hn.
Qed.

(** *** The retry loop *)

Section RetryFacts.

Variable raw_read : M Z.

Lemma retry_loop_step max_retries retry_count result w :
  retry_loop raw_read max_retries retry_count result w =
  if retry_count <? to_uint8 max_retries
  then
    let (r, w1) := raw_read w in
    if is_valid r then (Some r, w1)
    else retry_loop raw_read max_retries (to_uint8 (retry_count + 1))
           (Some r) (snd (arch_asm_delay_us 10000 (snd (recover r w1))))
  else (result, w).
Proof.
  rewrite retry_loop_equation_1.
  enough (H : forall b (e : (retry_count <? to_uint8 max_retries) = b),
    retry_loop_unfold_clause_1 raw_read max_retries retry_count
      (exist _ b e) result w =
    if b
    then
      let (r, w1) := raw_read w in
      if is_valid r then (Some r, w1)
      else retry_loop raw_read max_retries (to_uint8 (retry_count + 1))
             (Some r) (snd (arch_asm_delay_us 10000 (snd (recover r w1))))
    else (result, w)) by apply H.
  intros [|] e; cbn; [| reflexivity].
  destruct (raw_read w) as [r w1]. destruct (is_valid r); [reflexivity |].
  destruct (recover r w1). reflexivity.
Qed.

Lemma to_uint8_range z : 0 <= to_uint8 z < 256.
Proof. unfold to_uint8. apply Z.mod_pos_bound. lia. Qed.

Lemma to_uint8_small z : 0 <= z < 256 -> to_uint8 z = z.
Proof. intros H. unfold to_uint8. now apply Z.mod_small. Qed.

Lemma after_failures_succ j w :
  after_failures raw_read (S j) w =
  after_failures raw_read j (failed_attempt raw_read w).
Proof. reflexivity. Qed.

Lemma attempt_result_succ j w :
  attempt_result raw_read (S j) w =
  attempt_result raw_read j (failed_attempt raw_read w).
Proof. reflexivity. Qed.

(** The loop stops at the first attempt with a valid result and returns
    the world that attempt left. *)
Lemma retry_loop_first_valid k :
  forall max_retries retry_count result w v,
    0 <= retry_count ->
    retry_count + Z.of_nat k < to_uint8 max_retries ->
    (forall j, (j < k)%nat ->
               is_valid (attempt_result raw_read j w) = false) ->
    attempt_result raw_read k w = v ->
    is_valid v = true ->
    retry_loop raw_read max_retries retry_count result w =
    (Some v, snd (raw_read (after_failures raw_read k w))).
Proof.
  induction k as [| k IH]; intros max_retries retry_count result w v
    Hrc Hlt Hfail Hres Hv; rewrite retry_loop_step.
  - destruct (Z.ltb_spec retry_count (to_uint8 max_retries)); [| lia].
    unfold attempt_result in *. cbn [after_failures] in *.
    destruct (raw_read w) as [r w1] eqn:E. cbn [fst snd] in *. subst r.
    now rewrite Hv.
  - destruct (Z.ltb_spec retry_count (to_uint8 max_retries)); [| lia].
    pose proof (Hfail 0%nat ltac:(lia)) as H0.
    pose proof (to_uint8_range max_retries) as Hm.
    rewrite after_failures_succ.
    unfold attempt_result in H0. cbn [after_failures] in H0.
    unfold failed_attempt.
    destruct (raw_read w) as [r w1] eqn:E. cbn [fst] in H0. rewrite H0.
    apply IH.
    + apply to_uint8_range.
    + rewrite to_uint8_small by lia. lia.
    + intros j Hj. specialize (Hfail (S j) ltac:(lia)).
      unfold attempt_result in *. rewrite after_failures_succ in Hfail.
      unfold failed_attempt in Hfail. now rewrite E in Hfail.
    + unfold attempt_result in *. rewrite after_failures_succ in Hres.
      unfold failed_attempt in Hres. now rewrite E in Hres.
    + exact Hv.
Qed.

(** The loop with [n] attempts left, all of which fail, makes them all
    and returns the result of the last one. *)
Lemma retry_loop_exhausted n :
  forall max_retries retry_count result w,
    0 <= retry_count ->
    retry_count + Z.of_nat n = to_uint8 max_retries ->
    (forall j, (j < n)%nat ->
               is_valid (attempt_result raw_read j w) = false) ->
    retry_loop raw_read max_retries retry_count result w =
    (match n with
     | O => result
     | S n' => Some (attempt_result raw_read n' w)
     end, after_failures raw_read n w).
Proof.
  induction n as [| n IH]; intros max_retries retry_count result w
    Hrc Hlt Hfail; rewrite retry_loop_step.
  - destruct (Z.ltb_spec retry_count (to_uint8 max_retries)); [lia |].
    reflexivity.
  - destruct (Z.ltb_spec retry_count (to_uint8 max_retries)); [| lia].
    pose proof (Hfail 0%nat ltac:(lia)) as H0.
    pose proof (to_uint8_range max_retries) as Hm.
    rewrite after_failures_succ.
    unfold attempt_result in H0. cbn [after_failures] in H0.
    unfold failed_attempt.
    destruct (raw_read w) as [r w1] eqn:E. cbn [fst] in H0. rewrite H0.
    rewrite (IH max_retries).
    + f_equal. destruct n as [| n']; unfold attempt_result.
      * cbn [after_failures]. now rewrite E.
      * rewrite after_failures_succ. unfold failed_attempt.
        now rewrite E.
    + apply to_uint8_range.
    + rewrite to_uint8_small by lia. lia.
    + intros j Hj. specialize (Hfail (S j) ltac:(lia)).
      unfold attempt_result in *. rewrite after_failures_succ in Hfail.
      unfold failed_attempt in Hfail. now rewrite E in Hfail.
Qed.

(** Once [result] has been assigned the loop returns an assigned value. *)
Lemma retry_loop_assigned n :
  forall max_retries retry_count r w,
    (Z.to_nat (to_uint8 max_retries - retry_count) <= n)%nat ->
    exists v,
      fst (retry_loop raw_read max_retries retry_count (Some r) w) = Some v.
Proof.
  induction n as [| n IH]; intros max_retries retry_count r w Hn;
    rewrite retry_loop_step;
    destruct (Z.ltb_spec retry_count (to_uint8 max_retries)) as [Hlt | Hge];
    try (now exists r); [exfalso; lia |].
  destruct (raw_read w) as [r1 w1].
  destruct (is_valid r1); [now exists r1 |].
  apply IH.
  pose proof (to_uint8_range max_retries) as Hm.
  pose proof (to_uint8_range (retry_count + 1)) as Hc.
  destruct (Z_lt_le_dec (retry_count + 1) 0).
  - lia.
  - rewrite (to_uint8_small (retry_count + 1)) by lia. lia.
Qed.

End RetryFacts.

(* ===================================================================== *)
(** ** Properties of the raw protocol read *)
(* ===================================================================== *)

Lemma timeout_count_Z : Z.of_nat HX711_TIMEOUT_COUNT = 50000.
Proof. reflexivity. Qed.

Lemma busy_log_quiet n :
  filter is_clock_pulse (busy_log n) = [] /\
  length (filter (is_delay 1) (busy_log n)) = n.
Proof.
  induction n as [| n [IHc IHd]]; [now split |].
  cbn [busy_log]. rewrite !filter_app, IHc, length_app, IHd.
  split; [reflexivity | cbn; lia].
Qed.

(** C2. For every x in [-2^23, 2^23 - 1]: the 24-bit two's-complement
    frame of x, assembled MSB-first by the bit loop and then sign-extended,
    is x again; and a raw read that finds the chip ready (after any number
    of busy polls within the budget) and then sees that frame on the line
    returns x. *)
Theorem C2_frame_roundtrip (x : Z) (w : World) (j : nat) :
  -8388608 <= x <= 8388607 ->
  (j <= HX711_TIMEOUT_COUNT)%nat ->
  (forall k, (k < j)%nat -> dout_in w (k + n_dout w) = true) ->
  dout_in w (j + n_dout w) = false ->
  line w (S j + n_dout w) 24 = encode24 x ->
  sign_extend24 (assemble (encode24 x) 0) = x /\
  fst (hx711_read_improved w) = x.
Proof.
  intros Hx Hj Hbusy Hlow Hframe.
  assert (E : sign_extend24 (assemble (encode24 x) 0) = x)
    by (rewrite assemble_encode24; now apply sign_extend24_mod).
  split; [exact E |].
  now rewrite (read_improved_ready j w Hj Hbusy Hlow), Hframe.
Qed.

Lemma C2_frame_roundtrip_witness :
  sign_extend24 (assemble (encode24 (-1234567)) 0) = -1234567 /\
  fst (hx711_read_improved (driver_world (line_of_frame (-1234567))))
  = -1234567.
Proof.
  apply (C2_frame_roundtrip (-1234567)
           (driver_world (line_of_frame (-1234567))) 0).
  - lia.
  - apply Nat.le_0_l.
  - intros k Hk. inversion Hk.
  - reflexivity.
  - reflexivity.
Defined.

(** C4. If DOUT reads high on every poll of the ready-wait, the raw read
    returns exactly INT32_MIN, the accumulator still holds its initial 0,
    and no rising edge was driven on the clock line: the log grew by the
    prologue and the polls only. *)
Theorem C4_never_ready_returns_timeout (w : World) :
  (forall k, (k <= HX711_TIMEOUT_COUNT)%nat ->
             dout_in w (k + n_dout w) = true) ->
  fst (hx711_read_improved w) = INT32_MIN /\
  snd (fst (hx711_read_improved_acc w)) = 0 /\
  clock_pulses (snd (hx711_read_improved w)) = clock_pulses w /\
  log (snd (hx711_read_improved w)) = timeout_log ++ log w.
Proof.
  intros H.
  rewrite read_improved_busy, read_improved_acc_busy by exact H.
  cbn [fst snd].
  split; [reflexivity |]. split; [reflexivity |]. split; [| reflexivity].
  unfold clock_pulses, advance; cbn [log]. unfold timeout_log.
  generalize HX711_TIMEOUT_COUNT. intros n.
  rewrite <- app_assoc, filter_app, (proj1 (busy_log_quiet n)). reflexivity.
Qed.

Lemma C4_never_ready_returns_timeout_witness :
  fst (hx711_read_improved (driver_world line_stuck_high)) = INT32_MIN /\
  snd (fst (hx711_read_improved_acc (driver_world line_stuck_high))) = 0 /\
  clock_pulses (snd (hx711_read_improved (driver_world line_stuck_high)))
  = clock_pulses (driver_world line_stuck_high) /\
  log (snd (hx711_read_improved (driver_world line_stuck_high)))
  = timeout_log ++ log (driver_world line_stuck_high).
Proof.
  apply (C4_never_ready_returns_timeout (driver_world line_stuck_high)).
  intros k Hk. reflexivity.
Defined.

(** C5, as the code has it. When DOUT never goes low the ready-wait polls
    the line 50,001 times: 50,000 polls that are each followed by a
    decrement and a 1 us delay, and one more poll on which the exhausted
    counter is seen; then the raw read returns INT32_MIN. *)
Theorem C5_wait_polls_budget_plus_one (w : World) :
  (forall k, (k <= HX711_TIMEOUT_COUNT)%nat ->
             dout_in w (k + n_dout w) = true) ->
  fst (wait_ready HX711_TIMEOUT_COUNT (settled w)) = true /\
  polls (snd (wait_ready HX711_TIMEOUT_COUNT (settled w)))
  = polls (settled w) + 50001 /\
  delays 1 (snd (wait_ready HX711_TIMEOUT_COUNT (settled w)))
  = (HX711_TIMEOUT_COUNT + delays 1 (settled w))%nat /\
  fst (hx711_read_improved w) = INT32_MIN /\
  polls (snd (hx711_read_improved w)) = polls w + 50001.
Proof.
  intros H.
  rewrite read_improved_busy by exact H.
  rewrite (wait_ready_busy HX711_TIMEOUT_COUNT (settled w)) by exact H.
  cbn [fst snd]. unfold polls, delays, advance. cbn [n_dout log].
  rewrite !Nat2Z.inj_add, !Nat2Z.inj_succ, timeout_count_Z.
  split; [reflexivity |]. split; [lia |]. split; [| split; [reflexivity | lia]].
  generalize HX711_TIMEOUT_COUNT. intros n.
  now rewrite filter_app, length_app, (proj2 (busy_log_quiet n)).
Qed.

Lemma C5_wait_polls_budget_plus_one_witness :
  polls (snd (hx711_read_improved (driver_world line_stuck_high)))
  = polls (driver_world line_stuck_high) + 50001.
Proof.
  apply (C5_wait_polls_budget_plus_one (driver_world line_stuck_high)).
  intros k Hk. reflexivity.
Defined.

(** C5 as stated fails: on a line that stays high the ready-wait gives up
    after 50,001 polls, not 50,000. *)
Lemma C5_counterexample :
  fst (wait_ready HX711_TIMEOUT_COUNT (driver_world line_stuck_high)) = true /\
  polls (snd (wait_ready HX711_TIMEOUT_COUNT (driver_world line_stuck_high)))
  - polls (driver_world line_stuck_high) <> 50000.
Proof.
  rewrite (wait_ready_busy HX711_TIMEOUT_COUNT (driver_world line_stuck_high))
    by (intros k _; reflexivity).
  cbn [fst snd]. split; [reflexivity |].
  unfold polls, advance, driver_world. cbn [n_dout].
  rewrite Nat.add_0_r, Nat2Z.inj_succ, timeout_count_Z. discriminate.
Qed.

Lemma line_ext w w' k k' n :
  (forall i, (i < n)%nat -> dout_in w' (i + k') = dout_in w (i + k)) ->
  line w' k' n = line w k n.
Proof.
  revert k k'. induction n as [| n IH]; intros k k' H; [reflexivity |].
  unfold line in *. cbn [seq map]. f_equal.
  - apply (H 0%nat). lia.
  - apply IH. intros i Hi. rewrite !Nat.add_succ_r. apply (H (S i)). lia.
Qed.

Lemma read_improved_range w :
  fst (hx711_read_improved w) = INT32_MIN \/
  -8388608 <= fst (hx711_read_improved w) <= 8388607.
Proof.
  destruct (read_improved_cases w) as [E | (bits & Hlen & E)];
    [now left | right].
  rewrite E. apply sign_extend24_range. now apply assemble24_range.
Qed.

(** C7. The raw read never returns INT32_MAX.  And the read made for the
    check after the gain-select pulse has no part in the result: two worlds
    that show the same levels during the ready-wait and the 24 bits of the
    frame give the same value, whatever the line does at the check. *)
Theorem C7_comm_error_never_returned :
  (forall w, fst (hx711_read_improved w) <> INT32_MAX) /\
  (forall w w' j,
      (j <= HX711_TIMEOUT_COUNT)%nat ->
      (forall k, (k < j)%nat -> dout_in w (k + n_dout w) = true) ->
      dout_in w (j + n_dout w) = false ->
      (forall k, (k <= j + 24)%nat ->
                 dout_in w' (k + n_dout w') = dout_in w (k + n_dout w)) ->
      fst (hx711_read_improved w') = fst (hx711_read_improved w)).
Proof.
  split.
  - intros w. destruct (read_improved_range w) as [E | H].
    + rewrite E. discriminate.
    + unfold INT32_MAX. lia.
  - intros w w' j Hj Hbusy Hlow Hsame.
    rewrite (read_improved_ready j w Hj Hbusy Hlow).
    rewrite (read_improved_ready j w' Hj).
    + f_equal. f_equal. apply line_ext. intros i Hi.
      replace (i + (S j + n_dout w'))%nat with (S j + i + n_dout w')%nat by lia.
      replace (i + (S j + n_dout w))%nat with (S j + i + n_dout w)%nat by lia.
      apply Hsame. lia.
    + intros k Hk. rewrite Hsame by lia. now apply Hbusy.
    + rewrite Hsame by lia. exact Hlow.
Qed.

Lemma C7_comm_error_never_returned_witness :
  fst (hx711_read_improved (driver_world line_low)) <> INT32_MAX /\
  fst (hx711_read_improved (driver_world line_rises_at_check))
  = fst (hx711_read_improved (driver_world line_low)).
Proof.
  destruct C7_comm_error_never_returned as [Hnever Hcheck].
  split; [apply Hnever |].
  apply (Hcheck (driver_world line_low)
                (driver_world line_rises_at_check) 0%nat).
  - apply Nat.le_0_l.
  - intros k Hk. inversion Hk.
  - reflexivity.
  - intros k Hk. unfold driver_world, line_rises_at_check, line_low.
    cbn [dout_in n_dout]. apply Nat.leb_gt. lia.
Defined.

(** C9. Every value the raw read returns is INT32_MIN, INT32_MAX or a
    sign-extended sample in [-2^23, 2^23 - 1], and neither sentinel lies in
    that range. *)
Theorem C9_return_is_sentinel_or_24bit (w : World) :
  (fst (hx711_read_improved w) = INT32_MIN \/
   fst (hx711_read_improved w) = INT32_MAX \/
   -8388608 <= fst (hx711_read_improved w) <= 8388607) /\
  ~ (-8388608 <= INT32_MIN <= 8388607) /\
  ~ (-8388608 <= INT32_MAX <= 8388607).
Proof.
  split.
  - destruct (read_improved_range w) as [E | H]; [now left | now right; right].
  - unfold INT32_MIN, INT32_MAX. split; lia.
Qed.

(* ===================================================================== *)
(** ** Properties of the retrying read *)
(* ===================================================================== *)

Lemma read_with_retry_over_unfold raw_read max_retries w :
  hx711_read_with_retry_over raw_read max_retries w =
  retry_loop raw_read max_retries 0 None (retry_entry w).
Proof. reflexivity. Qed.

Lemma effect_retry_entry w :
  effect [F_hx711_read_with_retry] w (retry_entry w).
Proof. apply effect_enter. Qed.

Lemma effect_recover r w :
  effect (if r =? INT32_MIN
          then [F_hx711_power_down; F_hx711_power_up] else [])
         w (snd (recover r w)).
Proof.
  unfold recover. destruct (r =? INT32_MIN); [| apply effect_refl].
  apply (effect_bind [F_hx711_power_down] [F_hx711_power_up]);
    [apply effect_power_down | intros _ w1].
  apply (effect_bind [] [F_hx711_power_up]);
    [apply effect_delay | intros _ w2].
  apply effect_power_up.
Qed.

Lemma effect_failed_attempt w :
  effect (F_hx711_read_improved ::
          (if fst (hx711_read_improved w) =? INT32_MIN
           then [F_hx711_power_down; F_hx711_power_up] else []))
         w (failed_attempt hx711_read_improved w).
Proof.
  unfold failed_attempt.
  pose proof (effect_read_improved w) as Hr.
  destruct (hx711_read_improved w) as [r w1]. cbn [fst snd] in *.
  eapply (effect_trans [F_hx711_read_improved]); [exact Hr |].
  rewrite <- (app_nil_r (if r =? INT32_MIN then _ else _)).
  eapply effect_trans; [apply effect_recover | apply effect_delay].
Qed.

Lemma effect_after_timeouts n :
  forall w,
    (forall j, (j < n)%nat ->
               attempt_result hx711_read_improved j w = INT32_MIN) ->
    effect (concat (repeat attempt_then_recovery n))
           w (after_failures hx711_read_improved n w).
Proof.
  induction n as [| n IH]; intros w H; [apply effect_refl |].
  cbn [after_failures repeat concat].
  eapply effect_trans.
  - pose proof (effect_failed_attempt w) as Hf.
    pose proof (H 0%nat ltac:(lia)) as H0.
    unfold attempt_result in H0. cbn [after_failures] in H0.
    rewrite H0 in Hf. exact Hf.
  - apply IH. intros j Hj. rewrite <- attempt_result_succ. apply H. lia.
Qed.

Lemma count_attempts n :
  length (filter (fn_eqb F_hx711_read_improved)
                 (concat (repeat attempt_then_recovery n))) = n.
Proof.
  induction n as [| n IH]; [reflexivity |].
  cbn [repeat concat]. rewrite filter_app, length_app, IH. reflexivity.
Qed.

Lemma count_recoveries n :
  length (filter (fn_eqb F_hx711_power_down)
                 (concat (repeat attempt_then_recovery n))) = n /\
  length (filter (fn_eqb F_hx711_power_up)
                 (concat (repeat attempt_then_recovery n))) = n.
Proof.
  induction n as [| n [IHd IHu]]; [now split |].
  cbn [repeat concat]. rewrite !filter_app, !length_app, IHd, IHu.
  now split.
Qed.

(** A run of the driver neither changes the line nor goes back on it. *)
Lemma stuck_high_effect cs w w' :
  effect cs w w' -> stuck_high w -> stuck_high w'.
Proof.
  intros (l & k & -> & _) H k'. unfold advance; cbn [dout_in n_dout].
  rewrite Nat.add_assoc. apply H.
Qed.

Lemma read_improved_stuck_high w :
  stuck_high w -> fst (hx711_read_improved w) = INT32_MIN.
Proof. intros H. rewrite read_improved_busy; [reflexivity | intros k _; apply H]. Qed.

(** On a line that stays high every attempt times out. *)
Lemma attempts_time_out_stuck_high j :
  forall w, stuck_high w ->
            attempt_result hx711_read_improved j w = INT32_MIN.
Proof.
  induction j as [| j IH]; intros w H.
  - now apply read_improved_stuck_high.
  - rewrite attempt_result_succ. apply IH.
    eapply stuck_high_effect; [apply effect_failed_attempt | exact H].
Qed.

Lemma stuck_high_driver_world : stuck_high (driver_world line_stuck_high).
Proof. intros k. reflexivity. Qed.

(** The retrying read when every raw read of the run times out. *)
Lemma read_with_retry_all_timeouts (N : Z) (w : World) :
  1 <= N <= 255 ->
  (forall j, (j < Z.to_nat N)%nat ->
             attempt_result hx711_read_improved j (retry_entry w)
             = INT32_MIN) ->
  hx711_read_with_retry N w =
  (Some INT32_MIN,
   after_failures hx711_read_improved (Z.to_nat N) (retry_entry w)) /\
  effect (F_hx711_read_with_retry ::
          concat (repeat attempt_then_recovery (Z.to_nat N)))
         w (after_failures hx711_read_improved (Z.to_nat N) (retry_entry w)).
Proof.
  intros HN Hall. split.
  - unfold hx711_read_with_retry. rewrite read_with_retry_over_unfold.
    rewrite (retry_loop_exhausted hx711_read_improved (Z.to_nat N)).
    + destruct (Z.to_nat N) as [| n'] eqn:E; [lia |].
      rewrite Hall by lia. reflexivity.
    + lia.
    + rewrite Z2Nat.id, to_uint8_small by lia. lia.
    + intros j Hj. now rewrite Hall.
  - eapply (effect_trans [F_hx711_read_with_retry]);
      [apply effect_retry_entry | now apply effect_after_timeouts].
Qed.

(** C3, as the code has it. For 1 <= N <= 255, if every raw read of the
    run returns INT32_MIN, [hx711_read_with_retry N] makes exactly N raw
    reads, each one followed (not preceded) by one power-down / power-up
    pair, and returns INT32_MIN. *)
Theorem C3_all_timeouts_attempt_then_recovery (N : Z) (w : World) :
  1 <= N <= 255 ->
  (forall j, (j < Z.to_nat N)%nat ->
             attempt_result hx711_read_improved j (retry_entry w)
             = INT32_MIN) ->
  let w' := snd (hx711_read_with_retry N w) in
  fst (hx711_read_with_retry N w) = Some INT32_MIN /\
  w' = after_failures hx711_read_improved (Z.to_nat N) (retry_entry w) /\
  calls w' = calls w ++ F_hx711_read_with_retry ::
               concat (repeat attempt_then_recovery (Z.to_nat N)) /\
  entered F_hx711_read_improved w'
  = (entered F_hx711_read_improved w + Z.to_nat N)%nat /\
  entered F_hx711_power_down w'
  = (entered F_hx711_power_down w + Z.to_nat N)%nat /\
  entered F_hx711_power_up w'
  = (entered F_hx711_power_up w + Z.to_nat N)%nat.
Proof.
  intros HN Hall w'. subst w'.
  destruct (read_with_retry_all_timeouts N w HN Hall) as [E He].
  rewrite E. cbn [fst snd].
  split; [reflexivity |]. split; [reflexivity |].
  split; [apply (effect_calls _ _ _ He) |].
  rewrite !(effect_entered _ _ _ _ He). cbn [filter fn_eqb].
  rewrite count_attempts, (proj1 (count_recoveries _)),
    (proj2 (count_recoveries _)).
  now repeat split.
Qed.

Lemma C3_all_timeouts_attempt_then_recovery_witness :
  fst (hx711_read_with_retry 2 (driver_world line_stuck_high))
  = Some INT32_MIN /\
  calls (snd (hx711_read_with_retry 2 (driver_world line_stuck_high)))
  = calls (driver_world line_stuck_high) ++
    F_hx711_read_with_retry ::
    concat (repeat attempt_then_recovery (Z.to_nat 2)).
Proof.
  destruct (C3_all_timeouts_attempt_then_recovery 2
              (driver_world line_stuck_high)) as (Hr & _ & Hc & _).
  - lia.
  - intros j _. apply attempts_time_out_stuck_high.
    eapply stuck_high_effect;
      [apply effect_retry_entry | apply stuck_high_driver_world].
  - split; [exact Hr | exact Hc].
Defined.

(** C3 as stated fails: with one attempt allowed on a line that stays
    high, the raw read is entered first and the recovery pair after it;
    no recovery precedes the attempt. *)
Lemma C3_counterexample :
  attempt_result hx711_read_improved 0
    (retry_entry (driver_world line_stuck_high)) = INT32_MIN /\
  fst (hx711_read_with_retry 1 (driver_world line_stuck_high))
  = Some INT32_MIN /\
  calls (snd (hx711_read_with_retry 1 (driver_world line_stuck_high)))
  = F_hx711_read_with_retry :: attempt_then_recovery /\
  calls (snd (hx711_read_with_retry 1 (driver_world line_stuck_high)))
  <> F_hx711_read_with_retry :: recovery_then_attempt.
Proof.
  assert (Hall : forall j, (j < Z.to_nat 1)%nat ->
            attempt_result hx711_read_improved j
              (retry_entry (driver_world line_stuck_high)) = INT32_MIN).
  { intros j _. apply attempts_time_out_stuck_high.
    eapply stuck_high_effect;
      [apply effect_retry_entry | apply stuck_high_driver_world]. }
  destruct (read_with_retry_all_timeouts 1 (driver_world line_stuck_high)
              ltac:(lia) Hall) as [E He].
  rewrite E. cbn [fst snd]. rewrite (effect_calls _ _ _ He).
  split; [apply Hall; apply Nat.lt_0_1 |]. split; [reflexivity |].
  split; [reflexivity | discriminate].
Qed.

Lemma is_valid_iff v :
  is_valid v = true <-> v <> INT32_MIN /\ v <> INT32_MAX.
Proof.
  unfold is_valid. rewrite andb_true_iff, !negb_true_iff, !Z.eqb_neq.
  reflexivity.
Qed.

(** C6. For 1 <= max_retries <= 255 and any raw read: if attempt number k
    (k < max_retries) is the first whose result is neither INT32_MIN nor
    INT32_MAX, [hx711_read_with_retry] returns that result unchanged, and
    the world it returns is the one that raw read left: no recovery, no
    delay and no further attempt after it. *)
Theorem C6_returns_at_first_valid_attempt
    (raw_read : M Z) (max_retries : Z) (k : nat) (v : Z) (w : World) :
  1 <= max_retries <= 255 ->
  Z.of_nat k < max_retries ->
  (forall j, (j < k)%nat ->
             is_valid (attempt_result raw_read j (retry_entry w)) = false) ->
  attempt_result raw_read k (retry_entry w) = v ->
  v <> INT32_MIN ->
  v <> INT32_MAX ->
  hx711_read_with_retry_over raw_read max_retries w =
  (Some v, snd (raw_read (after_failures raw_read k (retry_entry w)))).
Proof.
  intros Hmax Hk Hfail Hres Hmin Hmax'.
  rewrite read_with_retry_over_unfold.
  apply retry_loop_first_valid; try assumption.
  - lia.
  - rewrite to_uint8_small by lia. lia.
  - now apply is_valid_iff.
Qed.

(** What a timed-out attempt uses up of the line: the polls of the wait
    and the read made by the power-up. *)
Lemma failed_attempt_busy w :
  (forall k, (k <= HX711_TIMEOUT_COUNT)%nat ->
             dout_in w (k + n_dout w) = true) ->
  dout_in (failed_attempt hx711_read_improved w) = dout_in w /\
  n_dout (failed_attempt hx711_read_improved w)
  = (S (S HX711_TIMEOUT_COUNT) + n_dout w)%nat.
Proof.
  intros H. unfold failed_attempt. rewrite read_improved_busy by exact H.
  clear H. generalize timeout_log. generalize HX711_TIMEOUT_COUNT.
  intros T l. split; reflexivity.
Qed.

Lemma line_list w k l :
  (forall i, (i < length l)%nat -> dout_in w (i + k) = nth i l false) ->
  line w k (length l) = l.
Proof.
  revert k. induction l as [| b l IH]; intros k H; [reflexivity |].
  unfold line in *. cbn [length seq map]. f_equal.
  - apply (H 0%nat). cbn [length]. lia.
  - apply IH. intros i Hi. rewrite Nat.add_succ_r. apply (H (S i)).
    cbn [length]. lia.
Qed.

(** The scenario of two timeouts and then a frame: the results of the
    three attempts. *)
Lemma two_timeouts_then_frame x :
  -8388608 <= x <= 8388607 ->
  let w0 := retry_entry (driver_world (line_two_timeouts_then x)) in
  attempt_result hx711_read_improved 0 w0 = INT32_MIN /\
  attempt_result hx711_read_improved 1 w0 = INT32_MIN /\
  attempt_result hx711_read_improved 2 w0 = x.
Proof.
  intros Hx w0.
  assert (Hd0 : dout_in w0 = line_two_timeouts_then x) by reflexivity.
  assert (Hn0 : n_dout w0 = 0%nat) by reflexivity.
  clearbody w0.
  assert (Hhigh : forall k, (k < two_timeouts_reads)%nat ->
                            line_two_timeouts_then x k = true).
  { intros k Hk. unfold line_two_timeouts_then.
    now apply Nat.ltb_lt in Hk as ->. }
  assert (Hframe : forall i, line_two_timeouts_then x (i + two_timeouts_reads)
                             = line_of_frame x i).
  { intros i. unfold line_two_timeouts_then.
    destruct (Nat.ltb_spec (i + two_timeouts_reads) two_timeouts_reads);
      [lia |].
    f_equal. lia. }
  assert (Hb0 : forall k, (k <= HX711_TIMEOUT_COUNT)%nat ->
                          dout_in w0 (k + n_dout w0) = true).
  { intros k Hk. rewrite Hd0, Hn0. apply Hhigh.
    unfold two_timeouts_reads. lia. }
  destruct (failed_attempt_busy w0 Hb0) as [Hd1 Hn1].
  remember (failed_attempt hx711_read_improved w0) as w1 eqn:Ew1.
  assert (Hb1 : forall k, (k <= HX711_TIMEOUT_COUNT)%nat ->
                          dout_in w1 (k + n_dout w1) = true).
  { intros k Hk. rewrite Hd1, Hn1, Hd0, Hn0. apply Hhigh.
    unfold two_timeouts_reads. lia. }
  destruct (failed_attempt_busy w1 Hb1) as [Hd2 Hn2].
  remember (failed_attempt hx711_read_improved w1) as w2 eqn:Ew2.
  assert (Hn2' : n_dout w2 = two_timeouts_reads)
    by (rewrite Hn2, Hn1, Hn0; unfold two_timeouts_reads; lia).
  assert (E0 : attempt_result hx711_read_improved 0 w0 = INT32_MIN).
  { unfold attempt_result. cbn [after_failures].
    rewrite read_improved_busy by exact Hb0. reflexivity. }
  assert (E1 : attempt_result hx711_read_improved 0 w1 = INT32_MIN).
  { unfold attempt_result. cbn [after_failures].
    rewrite read_improved_busy by exact Hb1. reflexivity. }
  split; [exact E0 |]. split.
  { rewrite attempt_result_succ, <- Ew1. exact E1. }
  rewrite !attempt_result_succ, <- Ew1, <- Ew2.
  unfold attempt_result. cbn [after_failures].
  rewrite (read_improved_ready 0 w2).
  - rewrite <- (length_encode 24 x) at 1. rewrite <- encode24_encode.
    rewrite line_list.
    + rewrite assemble_encode24. now apply sign_extend24_mod.
    + intros i Hi. rewrite Hd2, Hd1, Hd0, Hn2'.
      replace (i + (1 + two_timeouts_reads))%nat
        with (S i + two_timeouts_reads)%nat by lia.
      rewrite Hframe. reflexivity.
  - apply Nat.le_0_l.
  - intros k Hk. inversion Hk.
  - rewrite Hd2, Hd1, Hd0, Hn2', Hframe. reflexivity.
Qed.

Lemma C6_returns_at_first_valid_attempt_witness :
  hx711_read_with_retry 3 (driver_world (line_two_timeouts_then 1193046)) =
  (Some 1193046,
   snd (hx711_read_improved
          (after_failures hx711_read_improved 2
             (retry_entry (driver_world (line_two_timeouts_then 1193046)))))).
Proof.
  destruct (two_timeouts_then_frame 1193046 ltac:(lia)) as (H0 & H1 & H2).
  apply (C6_returns_at_first_valid_attempt hx711_read_improved 3 2 1193046
           (driver_world (line_two_timeouts_then 1193046))).
  - lia.
  - lia.
  - intros j Hj. destruct j as [| [| j]].
    + now rewrite H0.
    + now rewrite H1.
    + exfalso. lia.
  - exact H2.
  - discriminate.
  - discriminate.
Defined.

Lemma read_with_retry_assigned max_retries w :
  1 <= max_retries <= 255 ->
  exists v, fst (hx711_read_with_retry max_retries w) = Some v.
Proof.
  intros H. unfold hx711_read_with_retry.
  rewrite read_with_retry_over_unfold, retry_loop_step.
  rewrite (to_uint8_small max_retries) by lia.
  destruct (Z.ltb_spec 0 max_retries); [| lia].
  destruct (hx711_read_improved (retry_entry w)) as [r w1].
  destruct (is_valid r); [now exists r |].
  eapply retry_loop_assigned. apply Nat.le_refl.
Qed.

(** C10. With max_retries = 0 [hx711_read_with_retry] makes no attempt
    and returns [result] as it was declared, never assigned; for
    1 <= max_retries <= 255 the value it returns has been assigned. *)
Theorem C10_zero_retries_returns_unassigned :
  (forall w, hx711_read_with_retry 0 w = (None, retry_entry w)) /\
  (forall max_retries w,
      1 <= max_retries <= 255 ->
      exists v, fst (hx711_read_with_retry max_retries w) = Some v).
Proof.
  split.
  - intros w. unfold hx711_read_with_retry.
    rewrite read_with_retry_over_unfold, retry_loop_step. reflexivity.
  - intros max_retries w H. now apply read_with_retry_assigned.
Qed.

Lemma C10_zero_retries_returns_unassigned_witness :
  hx711_read_with_retry 0 (driver_world line_low)
  = (None, retry_entry (driver_world line_low)) /\
  exists v, fst (hx711_read_with_retry 3 (driver_world line_low)) = Some v.
Proof.
  destruct C10_zero_retries_returns_unassigned as [H0 H1].
  split; [apply H0 | apply H1; lia].
Defined.

(* ===================================================================== *)
(** ** Properties of the sampling callback *)
(* ===================================================================== *)

Lemma count_enter_calls_of f l :
  length (filter (is_enter f) l) = length (filter (fn_eqb f) (calls_of l)).
Proof.
  induction l as [| e l IH]; [reflexivity |].
  destruct e; cbn [filter is_enter calls_of]; try exact IH.
  destruct (fn_eqb f f0); cbn [length]; now rewrite IH.
Qed.

Lemma calls_log w : calls w = rev (calls_of (log w)).
Proof. unfold calls, history, rev'. now rewrite <- rev_alt, calls_of_rev. Qed.

Lemma length_filter_rev {A} (p : A -> bool) l :
  length (filter p (rev l)) = length (filter p l).
Proof.
  induction l as [| a l IH]; [reflexivity |].
  cbn [rev filter]. rewrite filter_app, length_app, IH. cbn [filter].
  destruct (p a); cbn [length]; lia.
Qed.

(** Entries of [f] counted on the log itself. *)
Lemma entered_count f w :
  entered f w = length (filter (is_enter f) (log w)).
Proof.
  unfold entered. now rewrite calls_log, length_filter_rev, count_enter_calls_of.
Qed.

(** What a failed attempt leaves behind, given what its raw read left. *)
Lemma effect_after_attempt r w w1 :
  effect [F_hx711_read_improved] w w1 ->
  effect (F_hx711_read_improved ::
          (if r =? INT32_MIN
           then [F_hx711_power_down; F_hx711_power_up] else []))
         w (snd (arch_asm_delay_us 10000 (snd (recover r w1)))).
Proof.
  intros Hr.
  eapply (effect_trans [F_hx711_read_improved]); [exact Hr |].
  rewrite <- (app_nil_r (if r =? INT32_MIN then _ else _)).
  eapply effect_trans; [apply effect_recover | apply effect_delay].
Qed.

(** The retrying read leaves the statics alone, asks for no timer and
    never enters [hx711_init]. *)
Lemma effect_retry_loop n :
  forall max_retries retry_count result w,
    (Z.to_nat (to_uint8 max_retries - retry_count) <= n)%nat ->
    exists cs,
      effect cs w (snd (retry_loop hx711_read_improved max_retries
                                   retry_count result w)) /\
      filter (fn_eqb F_hx711_init) cs = [].
Proof.
  induction n as [| n IH]; intros max_retries retry_count result w Hn;
    rewrite retry_loop_step;
    destruct (Z.ltb_spec retry_count (to_uint8 max_retries)) as [Hlt | Hge];
    try (exists []; split; [apply effect_refl | reflexivity]);
    [exfalso; lia |].
  pose proof (effect_read_improved w) as Hr.
  destruct (hx711_read_improved w) as [r w1]. cbn [fst snd] in Hr.
  pose proof (effect_after_attempt r w w1 Hr) as Hf.
  destruct (is_valid r).
  - exists [F_hx711_read_improved]. split; [exact Hr | reflexivity].
  - destruct (IH max_retries (to_uint8 (retry_count + 1)) (Some r)
                 (snd (arch_asm_delay_us 10000 (snd (recover r w1)))))
      as (cs & He & Hc).
    + pose proof (to_uint8_range max_retries) as Hm.
      pose proof (to_uint8_range (retry_count + 1)) as Hc.
      destruct (Z_lt_le_dec (retry_count + 1) 0); [lia |].
      rewrite (to_uint8_small (retry_count + 1)) by lia. lia.
    + eexists. split; [eapply effect_trans; [exact Hf | exact He] |].
      rewrite filter_app, Hc.
      destruct (r =? INT32_MIN); reflexivity.
Qed.

Lemma effect_read_with_retry max_retries w :
  exists cs,
    effect cs w (snd (hx711_read_with_retry max_retries w)) /\
    filter (fn_eqb F_hx711_init) cs = [].
Proof.
  unfold hx711_read_with_retry. rewrite read_with_retry_over_unfold.
  destruct (effect_retry_loop _ max_retries 0 None (retry_entry w)
              (Nat.le_refl _)) as (cs & He & Hc).
  exists (F_hx711_read_with_retry :: cs). split.
  - eapply (effect_trans [F_hx711_read_with_retry]);
      [apply effect_retry_entry | exact He].
  - cbn [filter fn_eqb]. exact Hc.
Qed.

Lemma cb_entry_fields w :
  log (cb_entry w)
  = EvMsgAlloc :: EvEnter F_app_adcval1_timer_cb_handler_improved :: log w /\
  consecutive_errors (cb_entry w) = consecutive_errors w /\
  adc_timer (cb_entry w) = adc_timer w /\
  adc_val_1 (cb_entry w) = adc_val_1 w /\
  ke_state_in (cb_entry w) = ke_state_in w /\
  timer_in (cb_entry w) = timer_in w /\
  n_state (cb_entry w) = n_state w /\
  n_timer (cb_entry w) = n_timer w.
Proof. destruct w. repeat split. Qed.

Ltac run_prims :=
  cbv beta iota zeta delta
    [bind ret emit enter set_consecutive_errors set_adc_val_1 set_adc_timer
     get_consecutive_errors get_adc_val_1 attmdb_att_set_value KE_MSG_SEND
     KE_MSG_FREE KE_MSG_ALLOC_DYN ke_state_get app_easy_timer advance
     fst snd dout_in ke_state_in timer_in n_dout n_state n_timer log
     adc_timer consecutive_errors adc_val_1].

Ltac count_events :=
  cbn [filter is_enter is_timer_request fn_eqb length app Nat.add].

Section CallbackFacts.

Variable EASY_TIMER_INVALID_TIMER : Z.
Variable APP_CONNECTED : Z.

Let cb := app_adcval1_timer_cb_handler_improved
            EASY_TIMER_INVALID_TIMER APP_CONNECTED.
Let after_read := cb_after_read EASY_TIMER_INVALID_TIMER APP_CONNECTED.

Lemma cb_after_read_valid v w :
  is_valid v = true ->
  let s := ke_state_in w (n_state w) in
  let w' := snd (after_read v w) in
  consecutive_errors w' = 0 /\
  entered F_hx711_init w' = entered F_hx711_init w /\
  adc_val_1 w' = v /\
  adc_timer w' = (if s =? APP_CONNECTED
                  then timer_in w (n_timer w)
                  else EASY_TIMER_INVALID_TIMER) /\
  timer_requests w' = (timer_requests w +
                       if (s =? APP_CONNECTED)%Z then 1 else 0)%nat.
Proof.
  intros Hv s w'. subst s w' after_read.
  unfold is_valid in Hv. rewrite <- negb_orb, negb_true_iff in Hv.
  rewrite !entered_count. unfold timer_requests, cb_after_read.
  rewrite Hv. destruct w as [d ks ti nd ns nt lg at' ce av]. run_prims.
  destruct (ks ns =? APP_CONNECTED); run_prims; count_events.
  - split; [reflexivity |]. split; [reflexivity |]. split; [reflexivity |].
    split; [reflexivity | lia].
  - split; [reflexivity |]. split; [reflexivity |]. split; [reflexivity |].
    split; [reflexivity | lia].
Qed.

(** The path of the callback after a read that gave a sentinel. *)
Lemma cb_after_read_failed v w :
  is_valid v = false ->
  let c := to_uint8 (consecutive_errors w + 1) in
  let s := ke_state_in w (n_state w) in
  let w' := snd (after_read v w) in
  consecutive_errors w' = (if max_consecutive_errors <=? c then 0 else c) /\
  entered F_hx711_init w'
  = (entered F_hx711_init w +
     if (max_consecutive_errors <=? c)%Z then 1 else 0)%nat /\
  adc_val_1 w' = adc_val_1 w /\
  adc_timer w' = (if s =? APP_CONNECTED
                  then timer_in w (n_timer w)
                  else adc_timer w) /\
  timer_requests w' = (timer_requests w +
                       if (s =? APP_CONNECTED)%Z then 1 else 0)%nat.
Proof.
  intros Hv c s w'. subst c s w' after_read.
  unfold is_valid in Hv. rewrite <- negb_orb, negb_false_iff in Hv.
  rewrite !entered_count. unfold timer_requests, cb_after_read.
  rewrite Hv. destruct w as [d ks ti nd ns nt lg at' ce av]. run_prims.
  destruct (max_consecutive_errors <=? to_uint8 (ce + 1)).
  - match goal with
    | |- context [hx711_init ?w2] =>
        destruct (effect_init w2) as (l & k & E & Hc & Ht);
        destruct (hx711_init w2) as [u w3]; cbn [snd] in E; subst w3
    end.
    assert (Hi : length (filter (is_enter F_hx711_init) l) = 1%nat)
      by (rewrite count_enter_calls_of, Hc; reflexivity).
    run_prims.
    destruct (ks ns =? APP_CONNECTED);
      run_prims; count_events;
      rewrite !filter_app, !length_app, Hi, Ht; cbn [length].
    + split; [reflexivity |]. split; [lia |]. split; [reflexivity |].
      split; [reflexivity | lia].
    + split; [reflexivity |]. split; [lia |]. split; [reflexivity |].
      split; [reflexivity | lia].
  - destruct (ks ns =? APP_CONNECTED); run_prims; count_events.
    + split; [reflexivity |]. split; [lia |]. split; [reflexivity |].
      split; [reflexivity | lia].
    + split; [reflexivity |]. split; [lia |]. split; [reflexivity |].
      split; [reflexivity | lia].
Qed.

Lemma cb_unfold w :
  cb w =
  match hx711_read_with_retry 3 (cb_entry w) with
  | (Some hx_val, w1) => Some (snd (after_read hx_val w1))
  | (None, _) => None
  end.
Proof. reflexivity. Qed.

(** Every expiry of the timer runs to the end: the retrying read gives
    an assigned value and leaves the statics, the timer and the SDK
    inputs as they were when the callback was entered. *)
Lemma cb_read w :
  exists hx_val w1,
    hx711_read_with_retry 3 (cb_entry w) = (Some hx_val, w1) /\
    cb w = Some (snd (after_read hx_val w1)) /\
    consecutive_errors w1 = consecutive_errors w /\
    adc_timer w1 = adc_timer w /\
    adc_val_1 w1 = adc_val_1 w /\
    entered F_hx711_init w1 = entered F_hx711_init w /\
    timer_requests w1 = timer_requests w /\
    ke_state_in w1 (n_state w1) = ke_state_in w (n_state w) /\
    timer_in w1 (n_timer w1) = timer_in w (n_timer w).
Proof.
  destruct (read_with_retry_assigned 3 (cb_entry w) ltac:(lia)) as [v Hv].
  destruct (effect_read_with_retry 3 (cb_entry w)) as (cs & He & Hc).
  destruct (cb_entry_fields w)
    as (Hlog & Hce0 & Ht0 & Hval0 & Hk0 & Hti0 & Hns0 & Hnt0).
  rewrite cb_unfold.
  destruct (hx711_read_with_retry 3 (cb_entry w)) as [r w1].
  cbn [fst snd] in *. subst r.
  exists v, w1. split; [reflexivity |]. split; [reflexivity |].
  destruct (effect_statics _ _ _ He) as (Ht & Hce & Hval).
  destruct (effect_inputs _ _ _ He) as (_ & Hk & Hti & Hns & Hnt & _).
  rewrite Ht, Hce, Hval, Hk, Hti, Hns, Hnt.
  rewrite (effect_entered F_hx711_init _ _ _ He), Hc.
  rewrite (effect_timer_requests _ _ _ He).
  rewrite !entered_count. unfold timer_requests.
  rewrite Hlog, Hce0, Ht0, Hval0, Hk0, Hti0, Hns0, Hnt0.
  count_events.
  split; [reflexivity |]. split; [reflexivity |]. split; [reflexivity |].
  split; [lia |]. split; [reflexivity |]. split; reflexivity.
Qed.

(** When the connection is down the callback asks for no timer; after a
    sample it stores the invalid handle, after a failed read it leaves
    the stored handle as it was. *)
Lemma cb_not_connected w :
  ke_state_in w (n_state w) <> APP_CONNECTED ->
  exists hx_val w1 w',
    hx711_read_with_retry 3 (cb_entry w) = (Some hx_val, w1) /\
    cb w = Some w' /\
    timer_requests w' = timer_requests w /\
    (is_valid hx_val = true -> adc_timer w' = EASY_TIMER_INVALID_TIMER) /\
    (is_valid hx_val = false -> adc_timer w' = adc_timer w).
Proof.
  intros Hs.
  destruct (cb_read w)
    as (v & w1 & Hr & Hcb & Hce & Ht & _ & _ & Htr & Hk & Hti).
  exists v, w1, (snd (after_read v w1)).
  split; [exact Hr |]. split; [exact Hcb |].
  apply Z.eqb_neq in Hs.
  destruct (is_valid v) eqn:Hv.
  - destruct (cb_after_read_valid v w1 Hv) as (_ & _ & _ & Ha & Hq).
    rewrite Hk, Hs in Ha, Hq. rewrite Hq, Htr, Ha.
    split; [lia |]. split; [reflexivity | discriminate].
  - destruct (cb_after_read_failed v w1 Hv) as (_ & _ & _ & Ha & Hq).
    rewrite Hk, Hs in Ha, Hq. rewrite Hq, Htr, Ha, Ht.
    split; [lia |]. split; [discriminate | reflexivity].
Qed.

(** C8. In every invocation of the callback: a read that gives a sample
    leaves the consecutive-error counter at zero, whatever it was, and
    enters no [hx711_init]; a read that gives a sentinel adds one to the
    counter, and when that brings it to 5 (or more) the callback enters
    [hx711_init] exactly once and leaves the counter at zero.  After any
    invocation the counter is below 5. *)
Theorem C8_consecutive_error_counter (w : World) :
  exists hx_val w1 w',
    hx711_read_with_retry 3 (cb_entry w) = (Some hx_val, w1) /\
    cb w = Some w' /\
    0 <= consecutive_errors w' < 5 /\
    (is_valid hx_val = true ->
     consecutive_errors w' = 0 /\
     entered F_hx711_init w' = entered F_hx711_init w) /\
    (is_valid hx_val = false ->
     0 <= consecutive_errors w <= 254 ->
     (consecutive_errors w + 1 < 5 ->
      consecutive_errors w' = consecutive_errors w + 1 /\
      entered F_hx711_init w' = entered F_hx711_init w) /\
     (5 <= consecutive_errors w + 1 ->
      consecutive_errors w' = 0 /\
      entered F_hx711_init w' = S (entered F_hx711_init w))).
Proof.
  destruct (cb_read w)
    as (v & w1 & Hr & Hcb & Hce & _ & _ & Hi & _).
  exists v, w1, (snd (after_read v w1)).
  split; [exact Hr |]. split; [exact Hcb |].
  destruct (is_valid v) eqn:Hv.
  - destruct (cb_after_read_valid v w1 Hv) as (Hc & He & _).
    rewrite Hc, He, Hi.
    split; [lia |]. split; [now split | discriminate].
  - destruct (cb_after_read_failed v w1 Hv) as (Hc & He & _).
    rewrite Hce in Hc, He. rewrite Hc, He, Hi.
    pose proof (to_uint8_range (consecutive_errors w + 1)) as Hu.
    unfold max_consecutive_errors.
    split; [| split; [discriminate |]].
    + destruct (Z.leb_spec 5 (to_uint8 (consecutive_errors w + 1))); lia.
    + intros _ Hrange.
      rewrite (to_uint8_small (consecutive_errors w + 1)) by lia.
      destruct (Z.leb_spec 5 (consecutive_errors w + 1)); split; intros;
        (split; lia).
Qed.

End CallbackFacts.

Lemma read_with_retry_stuck_high N w :
  1 <= N <= 255 ->
  stuck_high w ->
  fst (hx711_read_with_retry N w) = Some INT32_MIN.
Proof.
  intros HN H.
  destruct (read_with_retry_all_timeouts N w HN) as [E _].
  - intros j _. apply attempts_time_out_stuck_high.
    eapply stuck_high_effect; [apply effect_retry_entry | exact H].
  - rewrite E. reflexivity.
Qed.

Lemma C8_consecutive_error_counter_witness :
  exists w',
    app_adcval1_timer_cb_handler_improved 0 3
      (mkWorld line_stuck_high (fun _ => 3) (fun _ => 7) 0 0 0 [] 0 4 0)
    = Some w' /\
    consecutive_errors w' = 0 /\
    entered F_hx711_init w' = 1%nat.
Proof.
  destruct (C8_consecutive_error_counter 0 3
              (mkWorld line_stuck_high (fun _ => 3) (fun _ => 7)
                       0 0 0 [] 0 4 0))
    as (v & w1 & w' & Hr & Hcb & _ & _ & Hfail).
  assert (Hv : v = INT32_MIN).
  { apply (f_equal fst) in Hr. cbn [fst] in Hr.
    rewrite read_with_retry_stuck_high in Hr.
    - now injection Hr.
    - lia.
    - intros k. reflexivity. }
  subst v.
  destruct (Hfail eq_refl) as [_ Hinit]; [cbn; lia |].
  destruct Hinit as [Hc Hi]; [cbn; lia |].
  exists w'. split; [exact Hcb |]. split; [exact Hc | exact Hi].
Defined.

(** C1 fails on the path of a failed read.  First expiry: the connection
    is up, the read gives a sample, the callback reschedules itself and
    stores the handle 7 it is given.  Second expiry: the connection is
    down and the three attempts time out; the callback does not reschedule
    itself, but the stored handle is still 7, not the invalid-timer value
    (0 here). *)
Theorem C1_failed_read_keeps_stale_handle :
  let w0 := boot 0 line_one_sample_then_stuck (connected_once 3 2)
                 (fun _ => 7) in
  exists w1 w2,
    app_adcval1_timer_cb_handler_improved 0 3 w0 = Some w1 /\
    adc_timer w1 = 7 /\
    timer_requests w1 = 1%nat /\
    ke_state_in w1 (n_state w1) = 2 /\
    fst (hx711_read_with_retry 3 (cb_entry w1)) = Some INT32_MIN /\
    app_adcval1_timer_cb_handler_improved 0 3 w1 = Some w2 /\
    timer_requests w2 = 1%nat /\
    adc_timer w2 = 7 /\
    adc_timer w2 <> 0.
Proof.
  intros w0.
  destruct (app_adcval1_timer_cb_handler_improved 0 3 w0) as [w1 |] eqn:E1;
    vm_compute in E1; [| discriminate].
  injection E1 as <-.
  match goal with |- exists w1 w2, Some ?w = Some w1 /\ _ => set (w1 := w) end.
  assert (Hs : ke_state_in w1 (n_state w1) <> 3) by discriminate.
  assert (Hhigh : stuck_high (cb_entry w1)).
  { intros k. subst w1.
    unfold cb_entry, bind, enter, KE_MSG_ALLOC_DYN, emit;
      cbn [snd n_dout dout_in].
    change (Nat.leb 26 (k + 26) = true). apply Nat.leb_le. lia. }
  pose proof (read_with_retry_stuck_high 3 (cb_entry w1) ltac:(lia) Hhigh)
    as Hread.
  destruct (cb_not_connected 0 3 w1 Hs)
    as (v & w1' & w2 & Hr & Hcb & Htr & _ & Hkeep).
  rewrite Hr in Hread. cbn [fst] in Hread. injection Hread as ->.
  specialize (Hkeep eq_refl).
  exists w1, w2.
  split; [reflexivity |]. split; [reflexivity |]. split; [reflexivity |].
  split; [reflexivity |]. split; [rewrite Hr; reflexivity |].
  split; [exact Hcb |]. split; [rewrite Htr; reflexivity |].
  rewrite Hkeep. split; [reflexivity | discriminate].
Qed.

(** The loop of [hx711_init] has the same shape: on a line that stays high
    it also makes one poll more than its budget. *)
Lemma init_wait_busy timeout w :
  (forall k, (k <= timeout)%nat -> dout_in w (k + n_dout w) = true) ->
  fst (init_wait timeout w) = O /\
  n_dout (snd (init_wait timeout w)) = (S timeout + n_dout w)%nat.
Proof.
  revert w. induction timeout as [| t IH]; intros w H;
    rewrite init_wait_unfold; cbv zeta.
  - split; reflexivity.
  - pose proof (H 0%nat ltac:(lia)) as H0. cbn [Nat.add] in H0. rewrite H0.
    destruct (IH (snd (arch_asm_delay_us 10
                         (snd (GPIO_GetPinStatus HX711_DOUT w))))) as [Hf Hn].
    + intros k Hk. simpl. rewrite Nat.add_succ_r. apply (H (S k)). lia.
    + split; [exact Hf |]. rewrite Hn. simpl. lia.
Qed.

(* ===================================================================== *)
(** ** What a run of the driver costs *)
(* ===================================================================== *)

Lemma forallb_app_true {A} (p : A -> bool) l1 l2 :
  forallb p l1 = true -> forallb p l2 = true -> forallb p (l1 ++ l2) = true.
Proof. intros H1 H2. rewrite forallb_app, H1, H2. reflexivity. Qed.

Lemma elapsed_of_app l1 l2 :
  elapsed_of (l1 ++ l2) = elapsed_of l1 + elapsed_of l2.
Proof.
  induction l1 as [| e l1 IH]; [reflexivity |].
  destruct e; cbn [app elapsed_of]; rewrite IH; lia.
Qed.

Lemma last_sck_app l1 l2 :
  last_sck (l2 ++ l1) = then_sck (last_sck l1) (last_sck l2).
Proof.
  induction l2 as [| e l2 IH]; [reflexivity |].
  destruct e; cbn [app last_sck]; try exact IH.
  destruct p; [reflexivity | exact IH].
Qed.

Lemma driver_run_seq w w1 w2 r1 p1 u1 s1 r2 p2 u2 s2 r p u s :
  driver_run w w1 r1 p1 u1 s1 ->
  driver_run w1 w2 r2 p2 u2 s2 ->
  r = (r2 + r1)%nat -> p = (p1 + p2)%nat -> u = u1 + u2 ->
  s = then_sck s1 s2 ->
  driver_run w w2 r p u s.
Proof.
  intros (l1 & -> & Hd1 & Hp1 & Hu1 & Hs1) (l2 & -> & Hd2 & Hp2 & Hu2 & Hs2)
    -> -> -> ->.
  exists (l2 ++ l1). split; [apply advance_advance |].
  split; [now apply forallb_app_true |].
  rewrite filter_app, length_app, elapsed_of_app, last_sck_app.
  subst. split; [lia |]. split; [lia | reflexivity].
Qed.

Lemma driver_run_refl w : driver_run w w 0 0 0 None.
Proof. exists []. now rewrite advance_nil. Qed.

Lemma driver_run_bind {A B} (m : M A) (k : A -> M B) w
    r1 p1 u1 s1 r2 p2 u2 s2 r p u s :
  driver_run w (snd (m w)) r1 p1 u1 s1 ->
  (forall a w1, driver_run w1 (snd (k a w1)) r2 p2 u2 s2) ->
  r = (r2 + r1)%nat -> p = (p1 + p2)%nat -> u = u1 + u2 ->
  s = then_sck s1 s2 ->
  driver_run w (snd (bind m k w)) r p u s.
Proof.
  unfold bind. destruct (m w) as [a w1]. cbn [snd].
  intros H1 H2. eapply driver_run_seq; [exact H1 | apply H2].
Qed.

(** The primitives. *)
Lemma run_set_active w :
  driver_run w (snd (GPIO_SetActive HX711_SCK w)) 0 1 0 (Some true).
Proof. now exists [EvGpioSet HX711_SCK true]. Qed.

Lemma run_set_inactive w :
  driver_run w (snd (GPIO_SetInactive HX711_SCK w)) 0 0 0 (Some false).
Proof. now exists [EvGpioSet HX711_SCK false]. Qed.

Lemma run_delay us w : driver_run w (snd (arch_asm_delay_us us w)) 0 0 us None.
Proof.
  exists [EvDelayUs us]. cbn [elapsed_of]. rewrite Z.add_0_r.
  now repeat split.
Qed.

Lemma run_get p w : driver_run w (snd (GPIO_GetPinStatus p w)) 1 0 0 None.
Proof. now exists [EvGpioGet p (dout_in w (n_dout w))]. Qed.

Lemma run_enter f w : driver_run w (snd (enter f w)) 0 0 0 None.
Proof. now exists [EvEnter f]. Qed.

Lemma run_ret {A} (a : A) w : driver_run w (snd (ret a w)) 0 0 0 None.
Proof. apply driver_run_refl. Qed.

(** What a run leaves alone, and what it adds to the counters. *)
Lemma driver_run_observed w w' r p u s :
  driver_run w w' r p u s ->
  n_dout w' = (r + n_dout w)%nat /\
  dout_in w' = dout_in w /\
  clock_pulses w' = (p + clock_pulses w)%nat /\
  elapsed w' = u + elapsed w /\
  sck_level w' = then_sck (sck_level w) s.
Proof.
  intros (l & -> & _ & Hp & Hu & Hs).
  unfold clock_pulses, elapsed, sck_level, advance. cbn [n_dout dout_in log].
  rewrite filter_app, length_app, elapsed_of_app, last_sck_app, Hp, Hu, Hs.
  now repeat split.
Qed.

Lemma driver_events_filter (p : event -> bool) l :
  (forall e, p e = true -> is_driver_event e = false) ->
  forallb is_driver_event l = true ->
  filter p l = [].
Proof.
  intros Hp. induction l as [| e l IH]; [reflexivity |].
  cbn [forallb filter]. intros H. apply andb_prop in H as [He Hl].
  destruct (p e) eqn:E; [| now apply IH].
  rewrite (Hp e E) in He. discriminate.
Qed.

(** A run of the driver touches no message, attribute or timer. *)
Lemma driver_run_sdk_counts w w' r p u s :
  driver_run w w' r p u s ->
  count is_msg_alloc w' = count is_msg_alloc w /\
  count is_msg_free w' = count is_msg_free w /\
  count is_msg_send w' = count is_msg_send w /\
  count is_att_set w' = count is_att_set w /\
  timer_requests w' = timer_requests w.
Proof.
  intros (l & -> & Hd & _). unfold count, timer_requests, advance.
  cbn [log]. rewrite !filter_app, !length_app.
  rewrite !(driver_events_filter _ l) by
    (try exact Hd; intros e; destruct e; cbn; congruence).
  now repeat split.
Qed.

(** *** The raw read *)

(** The ready-wait, whatever the line does: it either sees the line high
    on every poll of the budget, or stops at the first low poll. *)
Lemma wait_ready_run timeout w :
  (fst (wait_ready timeout w) = true /\
   (forall k, (k <= timeout)%nat -> dout_in w (k + n_dout w) = true) /\
   driver_run w (snd (wait_ready timeout w))
              (S timeout) 0 (Z.of_nat timeout) None) \/
  (fst (wait_ready timeout w) = false /\
   exists j,
     (j <= timeout)%nat /\
     (forall k, (k < j)%nat -> dout_in w (k + n_dout w) = true) /\
     dout_in w (j + n_dout w) = false /\
     driver_run w (snd (wait_ready timeout w)) (S j) 0 (Z.of_nat j) None).
Proof.
  revert w. induction timeout as [| t IH]; intros w;
    rewrite wait_ready_unfold; cbv zeta;
    destruct (dout_in w (n_dout w)) eqn:E0.
  - left. split; [reflexivity |]. split; [| apply run_get].
    intros k Hk. replace k with 0%nat by lia. exact E0.
  - right. split; [reflexivity |]. exists 0%nat.
    split; [lia |]. split; [intros k Hk; lia |]. split; [exact E0 |].
    apply run_get.
  - set (w2 := snd (arch_asm_delay_us 1 (snd (GPIO_GetPinStatus HX711_DOUT w)))).
    assert (H2 : driver_run w w2 1 0 1 None).
    { eapply driver_run_seq; [apply run_get | apply run_delay | | | |];
        reflexivity. }
    assert (Hsh : forall k, dout_in w2 (k + n_dout w2) = dout_in w (S k + n_dout w)).
    { intros k. subst w2. simpl. now rewrite Nat.add_succ_r. }
    destruct (IH w2) as [(Hf & Hb & Hr) | (Hf & j & Hj & Hb & Hl & Hr)].
    + left. split; [exact Hf |]. split.
      * intros k Hk. destruct k as [| k]; [exact E0 |].
        rewrite <- Hsh. apply Hb. lia.
      * eapply driver_run_seq; [exact H2 | exact Hr | | | |];
          try reflexivity; lia.
    + right. split; [exact Hf |]. exists (S j).
      split; [lia |]. split; [| split].
      * intros k Hk. destruct k as [| k]; [exact E0 |].
        rewrite <- Hsh. apply Hb. lia.
      * rewrite <- Hsh. exact Hl.
      * eapply driver_run_seq; [exact H2 | exact Hr | | | |];
          try reflexivity; lia.
  - right. split; [reflexivity |]. exists 0%nat.
    split; [lia |]. split; [intros k Hk; lia |]. split; [exact E0 |].
    apply run_get.
Qed.

(** The bit loop: one read, one pulse and 2 us per bit, clock left low. *)
Lemma read_bits_run n value w :
  driver_run w (snd (read_bits n value w)) n n (2 * Z.of_nat n)
             (match n with O => None | S _ => Some false end).
Proof.
  revert value w. induction n as [| n IH]; intros value w.
  - apply driver_run_refl.
  - rewrite read_bits_unfold. cbv zeta.
    eapply driver_run_seq; [| apply IH | | | |].
    + eapply driver_run_seq; [| apply run_get | | | |].
      * eapply driver_run_seq; [| apply run_delay | | | |].
        -- eapply driver_run_seq; [| apply run_set_inactive | | | |].
           ++ eapply driver_run_seq;
                [apply run_set_active | apply run_delay | | | |];
                reflexivity.
           ++ reflexivity.
           ++ reflexivity.
           ++ reflexivity.
           ++ reflexivity.
        -- reflexivity.
        -- reflexivity.
        -- reflexivity.
        -- reflexivity.
      * reflexivity.
      * reflexivity.
      * reflexivity.
      * reflexivity.
    + lia.
    + lia.
    + unfold HX711_CLOCK_HIGH_US, HX711_CLOCK_LOW_US. lia.
    + cbn [then_sck]. now destruct n.
Qed.

Lemma run_settled w : driver_run w (settled w) 0 0 100 (Some false).
Proof.
  exists [EvDelayUs HX711_SETTLE_TIME_US; EvGpioSet HX711_SCK false;
          EvEnter F_hx711_read_improved].
  now repeat split.
Qed.

Lemma run_checked w : driver_run w (checked w) 1 1 12 (Some false).
Proof.
  exists [EvGpioGet HX711_DOUT (dout_in w (n_dout w)); EvDelayUs 10;
          EvDelayUs HX711_CLOCK_LOW_US; EvGpioSet HX711_SCK false;
          EvDelayUs HX711_CLOCK_HIGH_US; EvGpioSet HX711_SCK true].
  now repeat split.
Qed.

(** The raw read, whatever the line does: a timeout after a full wait, or
    a frame read from the first low poll on. *)
Lemma read_improved_run w :
  (fst (hx711_read_improved w) = INT32_MIN /\
   (forall k, (k <= HX711_TIMEOUT_COUNT)%nat ->
              dout_in w (k + n_dout w) = true) /\
   driver_run w (snd (hx711_read_improved w))
              (S HX711_TIMEOUT_COUNT) 0
              (100 + Z.of_nat HX711_TIMEOUT_COUNT) (Some false)) \/
  (exists j,
     (j <= HX711_TIMEOUT_COUNT)%nat /\
     (forall k, (k < j)%nat -> dout_in w (k + n_dout w) = true) /\
     dout_in w (j + n_dout w) = false /\
     fst (hx711_read_improved w)
     = sign_extend24 (assemble (line w (S j + n_dout w) 24) 0) /\
     driver_run w (snd (hx711_read_improved w))
                (j + 26) 25 (160 + Z.of_nat j) (Some false)).
Proof.
  destruct (wait_ready_run HX711_TIMEOUT_COUNT (settled w))
    as [(Hf & Hb & Hr) | (Hf & j & Hj & Hb & Hl & Hr)].
  - left. rewrite read_improved_unfold.
    destruct (wait_ready HX711_TIMEOUT_COUNT (settled w)) as [b w1].
    cbn [fst snd] in *. subst b. cbn [fst snd].
    split; [reflexivity |]. split; [exact Hb |].
    eapply driver_run_seq; [apply run_settled | exact Hr | | | |].
    + lia.
    + reflexivity.
    + reflexivity.
    + reflexivity.
  - right. exists j. split; [exact Hj |]. split; [exact Hb |].
    split; [exact Hl |].
    split; [now apply read_improved_ready |].
    rewrite read_improved_unfold.
    destruct (wait_ready HX711_TIMEOUT_COUNT (settled w)) as [b w1].
    cbn [fst snd] in *. subst b.
    pose proof (read_bits_run 24 0 w1) as Hbits.
    destruct (read_bits 24 0 w1) as [value w2]. cbn [snd] in *.
    eapply driver_run_seq; [apply run_settled | | | | |].
    + eapply driver_run_seq; [exact Hr | | | | |].
      * eapply driver_run_seq;
          [exact Hbits | apply run_checked | | | |]; reflexivity.
      * reflexivity.
      * reflexivity.
      * reflexivity.
      * reflexivity.
    + lia.
    + reflexivity.
    + lia.
    + reflexivity.
Qed.

Lemma length_line w k n : length (line w k n) = n.
Proof. unfold line. now rewrite length_map, length_seq. Qed.

Lemma sample_not_timeout bits :
  length bits = 24%nat -> sign_extend24 (assemble bits 0) <> INT32_MIN.
Proof.
  intros H. pose proof (sign_extend24_range _ (assemble24_range bits H)).
  unfold INT32_MIN. lia.
Qed.

(** X1. Whatever the line does, the raw read drives exactly 25 rising
    edges on the clock when it returns a sample (24 bits and the
    gain-select pulse) and none when it returns INT32_MIN, and it leaves the
    clock low. *)
Theorem X1_read_improved_clock_pulses (w : World) :
  clock_pulses (snd (hx711_read_improved w))
  = ((if (fst (hx711_read_improved w) =? INT32_MIN)%Z then 0 else 25)
     + clock_pulses w)%nat /\
  sck_level (snd (hx711_read_improved w)) = Some false.
Proof.
  destruct (read_improved_run w)
    as [(Hf & _ & Hr) | (j & _ & _ & _ & Hf & Hr)];
    destruct (driver_run_observed _ _ _ _ _ _ Hr) as (_ & _ & Hp & _ & Hs);
    rewrite Hp, Hs, Hf.
  - split; reflexivity.
  - pose proof (sample_not_timeout (line w (S j + n_dout w) 24)
                  (length_line _ _ _)) as Hne.
    apply Z.eqb_neq in Hne. rewrite Hne. split; reflexivity.
Qed.

(** X2. Whatever the line does, one raw read makes between 26 and 50,026
    reads of DOUT and busy-waits between 160 and 50,160 microseconds. *)
Theorem X2_read_improved_bounded (w : World) :
  polls w + 26 <= polls (snd (hx711_read_improved w)) <= polls w + 50026 /\
  elapsed w + 160 <= elapsed (snd (hx711_read_improved w))
  <= elapsed w + 50160.
Proof.
  pose proof timeout_count_Z as HT.
  destruct (read_improved_run w)
    as [(_ & _ & Hr) | (j & Hj & _ & _ & _ & Hr)];
    destruct (driver_run_observed _ _ _ _ _ _ Hr) as (Hn & _ & _ & He & _);
    unfold polls; rewrite Hn, He; lia.
Qed.

(** X3. When DOUT is high on the first j polls of the wait and low on the
    next (j within the budget), the raw read makes exactly j + 26 reads of
    DOUT, drives 25 clock pulses, busy-waits 160 + j microseconds and
    returns the sign-extended frame made of the 24 levels that follow the
    low poll. *)
Theorem X3_read_improved_ready_cost (w : World) (j : nat) :
  (j <= HX711_TIMEOUT_COUNT)%nat ->
  (forall k, (k < j)%nat -> dout_in w (k + n_dout w) = true) ->
  dout_in w (j + n_dout w) = false ->
  fst (hx711_read_improved w)
  = sign_extend24 (assemble (line w (S j + n_dout w) 24) 0) /\
  polls (snd (hx711_read_improved w)) = polls w + Z.of_nat j + 26 /\
  clock_pulses (snd (hx711_read_improved w)) = (25 + clock_pulses w)%nat /\
  elapsed (snd (hx711_read_improved w)) = elapsed w + 160 + Z.of_nat j.
Proof.
  intros Hj Hb Hl.
  split; [now apply read_improved_ready |].
  destruct (read_improved_run w)
    as [(_ & Hb' & _) | (j' & Hj' & Hb' & Hl' & _ & Hr)].
  - rewrite (Hb' j Hj) in Hl. discriminate.
  - assert (j' = j).
    { destruct (Nat.lt_trichotomy j' j) as [Hlt | [Heq | Hgt]];
        [| exact Heq |].
      - rewrite (Hb j' Hlt) in Hl'. discriminate.
      - rewrite (Hb' j Hgt) in Hl. discriminate. }
    subst j'.
    destruct (driver_run_observed _ _ _ _ _ _ Hr) as (Hn & _ & Hp & He & _).
    unfold polls. rewrite Hn, Hp, He. split; [lia |]. split; [reflexivity | lia].
Qed.

Lemma X3_read_improved_ready_cost_witness :
  polls (snd (hx711_read_improved (driver_world (line_ready_after 3))))
  = polls (driver_world (line_ready_after 3)) + Z.of_nat 3 + 26 /\
  elapsed (snd (hx711_read_improved (driver_world (line_ready_after 3))))
  = elapsed (driver_world (line_ready_after 3)) + 160 + Z.of_nat 3.
Proof.
  destruct (X3_read_improved_ready_cost
              (driver_world (line_ready_after 3)) 3) as (_ & Hn & _ & He).
  - apply Nat2Z.inj_le. rewrite timeout_count_Z. lia.
  - intros k Hk. unfold driver_world, line_ready_after. cbn [dout_in n_dout].
    apply Nat.ltb_lt. lia.
  - reflexivity.
  - split; [exact Hn | exact He].
Defined.

(** *** Power sequencing and initialisation *)

Lemma run_power_down w :
  driver_run w (snd (hx711_power_down w)) 0 1 60 (Some true).
Proof.
  exists [EvDelayUs 60; EvGpioSet HX711_SCK true; EvEnter F_hx711_power_down].
  now repeat split.
Qed.

Lemma run_power_up w :
  driver_run w (snd (hx711_power_up w)) 1 0 100000 (Some false).
Proof.
  exists [EvGpioGet HX711_DOUT (dout_in w (n_dout w));
          EvDelayUs (HX711_POWER_UP_TIME_MS * 1000);
          EvGpioSet HX711_SCK false; EvEnter F_hx711_power_up].
  now repeat split.
Qed.

(** The wait of [hx711_init], whatever the line does: it stops at the
    first low poll, or at the poll made when the budget is used up. *)
Lemma init_wait_run timeout w :
  exists j,
    (j <= timeout)%nat /\
    (forall k, (k < j)%nat -> dout_in w (k + n_dout w) = true) /\
    ((j < timeout)%nat -> dout_in w (j + n_dout w) = false) /\
    fst (init_wait timeout w) = (timeout - j)%nat /\
    driver_run w (snd (init_wait timeout w)) (S j) 0 (10 * Z.of_nat j) None.
Proof.
  revert w. induction timeout as [| t IH]; intros w;
    rewrite init_wait_unfold; cbv zeta.
  - exists 0%nat. split; [lia |]. split; [intros k Hk; lia |].
    split; [intros Hk; lia |]. split; [reflexivity | apply run_get].
  - destruct (dout_in w (n_dout w)) eqn:E0.
    + set (w2 := snd (arch_asm_delay_us 10
                        (snd (GPIO_GetPinStatus HX711_DOUT w)))).
      assert (H2 : driver_run w w2 1 0 10 None).
      { eapply driver_run_seq; [apply run_get | apply run_delay | | | |];
          reflexivity. }
      assert (Hsh : forall k, dout_in w2 (k + n_dout w2)
                              = dout_in w (S k + n_dout w)).
      { intros k. subst w2. simpl. now rewrite Nat.add_succ_r. }
      destruct (IH w2) as (j & Hj & Hb & Hl & Hf & Hr).
      exists (S j). split; [lia |]. split; [| split; [| split]].
      * intros k Hk. destruct k as [| k]; [exact E0 |].
        rewrite <- Hsh. apply Hb. lia.
      * intros Hk. rewrite <- Hsh. apply Hl. lia.
      * rewrite Hf. reflexivity.
      * eapply driver_run_seq; [exact H2 | exact Hr | | | |];
          try reflexivity; lia.
    + exists 0%nat. split; [lia |]. split; [intros k Hk; lia |].
      split; [intros _; exact E0 |]. split; [reflexivity | apply run_get].
Qed.

(** [hx711_init], whatever the line does.  The read of the power-up comes
    first, so poll [k] of the wait is read [S k] of the line. *)
Lemma init_run w :
  exists j,
    (j <= HX711_TIMEOUT_COUNT)%nat /\
    (forall k, (k < j)%nat -> dout_in w (S k + n_dout w) = true) /\
    ((j < HX711_TIMEOUT_COUNT)%nat -> dout_in w (S j + n_dout w) = false) /\
    driver_run w (snd (hx711_init w)) (j + 2) 0
               (100000 + 10 * Z.of_nat j) (Some false).
Proof.
  unfold hx711_init, bind at 1 2 3.
  destruct (enter F_hx711_init w) as [u0 w0] eqn:E0.
  assert (H0 : driver_run w w0 0 0 0 None)
    by (change w0 with (snd (u0, w0)); rewrite <- E0; apply run_enter).
  destruct (GPIO_SetInactive HX711_SCK w0) as [u1 w1] eqn:E1.
  assert (H1 : driver_run w0 w1 0 0 0 (Some false))
    by (change w1 with (snd (u1, w1)); rewrite <- E1; apply run_set_inactive).
  destruct (hx711_power_up w1) as [u2 w2] eqn:E2.
  assert (H2 : driver_run w1 w2 1 0 100000 (Some false))
    by (change w2 with (snd (u2, w2)); rewrite <- E2; apply run_power_up).
  assert (H02 : driver_run w w2 1 0 100000 (Some false)).
  { eapply driver_run_seq; [| exact H2 | | | |].
    - eapply driver_run_seq; [exact H0 | exact H1 | | | |]; reflexivity.
    - reflexivity.
    - reflexivity.
    - reflexivity.
    - reflexivity. }
  destruct (driver_run_observed _ _ _ _ _ _ H02) as (Hn & Hd & _).
  destruct (init_wait_run HX711_TIMEOUT_COUNT w2)
    as (j & Hj & Hb & Hl & _ & Hr).
  exists j. split; [exact Hj |].
  split; [| split].
  - intros k Hk. specialize (Hb k Hk). rewrite Hd, Hn in Hb.
    rewrite <- Hb. f_equal. lia.
  - intros Hk. specialize (Hl Hk). rewrite Hd, Hn in Hl.
    rewrite <- Hl. f_equal. lia.
  - unfold bind, ret.
    destruct (init_wait HX711_TIMEOUT_COUNT w2) as [t w3]. cbn [snd] in *.
    eapply driver_run_seq; [exact H02 | exact Hr | | | |].
    + lia.
    + reflexivity.
    + reflexivity.
    + reflexivity.
Qed.

(** X4. Whatever the line does, [hx711_init] returns: it drives no rising
    edge on the clock, leaves the clock low, makes between 2 and 50,002
    reads of DOUT and busy-waits between 100 and 600 milliseconds. *)
Theorem X4_init_bounded (w : World) :
  clock_pulses (snd (hx711_init w)) = clock_pulses w /\
  sck_level (snd (hx711_init w)) = Some false /\
  polls w + 2 <= polls (snd (hx711_init w)) <= polls w + 50002 /\
  elapsed w + 100000 <= elapsed (snd (hx711_init w)) <= elapsed w + 600000.
Proof.
  pose proof timeout_count_Z as HT.
  destruct (init_run w) as (j & Hj & _ & _ & Hr).
  destruct (driver_run_observed _ _ _ _ _ _ Hr) as (Hn & _ & Hp & He & Hs).
  unfold polls. rewrite Hn, Hp, He, Hs.
  split; [reflexivity |]. split; [reflexivity |]. split; lia.
Qed.

(** X5. If, after the read made by the power-up, DOUT is high on the
    first j polls of the wait and low on the next (or j is the whole
    budget), [hx711_init] makes exactly j + 2 reads of DOUT and busy-waits
    100,000 + 10 j microseconds: it waits no longer than the chip needs,
    and with an exhausted budget it returns all the same. *)
Theorem X5_init_ready_cost (w : World) (j : nat) :
  (j <= HX711_TIMEOUT_COUNT)%nat ->
  (forall k, (k < j)%nat -> dout_in w (S k + n_dout w) = true) ->
  ((j < HX711_TIMEOUT_COUNT)%nat -> dout_in w (S j + n_dout w) = false) ->
  polls (snd (hx711_init w)) = polls w + Z.of_nat j + 2 /\
  elapsed (snd (hx711_init w)) = elapsed w + 100000 + 10 * Z.of_nat j.
Proof.
  intros Hj Hb Hl.
  destruct (init_run w) as (j' & Hj' & Hb' & Hl' & Hr).
  assert (j' = j).
  { destruct (Nat.lt_trichotomy j' j) as [Hlt | [Heq | Hgt]];
      [| exact Heq |].
    - rewrite (Hb j' Hlt) in Hl'. specialize (Hl' ltac:(lia)). discriminate.
    - rewrite (Hb' j Hgt) in Hl. specialize (Hl ltac:(lia)). discriminate. }
  subst j'.
  destruct (driver_run_observed _ _ _ _ _ _ Hr) as (Hn & _ & _ & He & _).
  unfold polls. rewrite Hn, He. split; lia.
Qed.

Lemma X5_init_ready_cost_witness :
  polls (snd (hx711_init (driver_world (line_ready_after 4))))
  = polls (driver_world (line_ready_after 4)) + Z.of_nat 3 + 2 /\
  elapsed (snd (hx711_init (driver_world (line_ready_after 4))))
  = elapsed (driver_world (line_ready_after 4)) + 100000 + 10 * Z.of_nat 3.
Proof.
  apply (X5_init_ready_cost (driver_world (line_ready_after 4)) 3).
  - apply Nat2Z.inj_le. rewrite timeout_count_Z. lia.
  - intros k Hk. unfold driver_world, line_ready_after. cbn [dout_in n_dout].
    apply Nat.ltb_lt. lia.
  - intros _. reflexivity.
Defined.

(** *** The retrying read, whatever the line does *)

Lemma run_recover_timeout w :
  driver_run w (snd (recover INT32_MIN w)) 1 1 101060 (Some false).
Proof.
  unfold recover. change (INT32_MIN =? INT32_MIN) with true. cbv iota.
  eapply driver_run_bind; [apply run_power_down | intros _ w1 | | | |].
  - eapply driver_run_bind; [apply run_delay | intros _ w2 | | | |].
    + apply run_power_up.
    + reflexivity.
    + reflexivity.
    + reflexivity.
    + reflexivity.
  - reflexivity.
  - reflexivity.
  - reflexivity.
  - reflexivity.
Qed.

Lemma is_valid_sample v : -8388608 <= v <= 8388607 -> is_valid v = true.
Proof. intros H. apply is_valid_iff. unfold INT32_MIN, INT32_MAX. lia. Qed.

(** One attempt of the loop, seen from the world its raw read left. *)
Lemma attempt_run w :
  let r := fst (hx711_read_improved w) in
  let w1 := snd (hx711_read_improved w) in
  timeout_or_sample r /\
  (is_valid r = true ->
   exists reads us,
     driver_run w w1 reads 25 us (Some false) /\ 0 <= us <= FAILED_ATTEMPT_US) /\
  (is_valid r = false ->
   r = INT32_MIN /\
   driver_run w (snd (arch_asm_delay_us 10000 (snd (recover r w1))))
              (HX711_TIMEOUT_COUNT + 2) 1 FAILED_ATTEMPT_US (Some false)).
Proof.
  intros r w1. subst r w1. pose proof timeout_count_Z as HT.
  destruct (read_improved_run w)
    as [(Hf & _ & Hr) | (j & Hj & _ & _ & Hf & Hr)].
  - rewrite Hf. split; [now left |]. split; [discriminate |].
    intros _. split; [reflexivity |].
    eapply driver_run_seq; [exact Hr | | | | |].
    + eapply driver_run_seq;
        [apply run_recover_timeout | apply run_delay | | | |]; reflexivity.
    + lia.
    + reflexivity.
    + unfold FAILED_ATTEMPT_US. lia.
    + reflexivity.
  - pose proof (sign_extend24_range _
                  (assemble24_range (line w (S j + n_dout w) 24)
                     (length_line _ _ _))) as Hrange.
    rewrite <- Hf in Hrange.
    split; [now right |]. rewrite (is_valid_sample _ Hrange).
    split; [| discriminate].
    intros _. exists (j + 26)%nat, (160 + Z.of_nat j).
    split; [exact Hr |]. unfold FAILED_ATTEMPT_US. lia.
Qed.

Lemma uint8_next_measure max_retries retry_count n :
  retry_count < to_uint8 max_retries ->
  (Z.to_nat (to_uint8 max_retries - retry_count) <= S n)%nat ->
  (Z.to_nat (to_uint8 max_retries - to_uint8 (retry_count + 1)) <= n)%nat.
Proof.
  intros Hlt Hn.
  pose proof (to_uint8_range max_retries) as Hm.
  pose proof (to_uint8_range (retry_count + 1)) as Hc.
  destruct (Z_lt_le_dec (retry_count + 1) 0); [lia |].
  rewrite (to_uint8_small (retry_count + 1)) by lia. lia.
Qed.

(** The loop with at most [n] attempts left. *)
Lemma retry_loop_run n :
  forall max_retries retry_count result w,
    (Z.to_nat (to_uint8 max_retries - retry_count) <= n)%nat ->
    let out := retry_loop hx711_read_improved max_retries retry_count
                          result w in
    (to_uint8 max_retries <= retry_count -> out = (result, w)) /\
    (retry_count < to_uint8 max_retries ->
     exists v reads pulses us,
       fst out = Some v /\ timeout_or_sample v /\
       driver_run w (snd out) reads pulses us (Some false) /\
       0 <= us <= FAILED_ATTEMPT_US * Z.of_nat n).
Proof.
  induction n as [| n IH]; intros max_retries retry_count result w Hn out;
    subst out; rewrite retry_loop_step;
    destruct (Z.ltb_spec retry_count (to_uint8 max_retries)) as [Hlt | Hge].
  - exfalso. lia.
  - split; [reflexivity | intros; lia].
  - split; [intros; lia | intros _].
    destruct (attempt_run w) as (Hgood & Hvalid & Hfailed).
    destruct (hx711_read_improved w) as [r w1]. cbn [fst snd] in *.
    destruct (is_valid r).
    + destruct (Hvalid eq_refl) as (reads & us & Hr & Hus).
      exists r, reads, 25%nat, us. cbn [fst snd].
      split; [reflexivity |]. split; [exact Hgood |]. split; [exact Hr |].
      unfold FAILED_ATTEMPT_US in *. lia.
    + destruct (Hfailed eq_refl) as (-> & Hr).
      pose proof (uint8_next_measure _ _ _ Hlt Hn) as Hn'.
      destruct (IH max_retries (to_uint8 (retry_count + 1)) (Some INT32_MIN)
                   (snd (arch_asm_delay_us 10000
                           (snd (recover INT32_MIN w1)))) Hn')
        as [Hdone Hmore].
      destruct (Z_lt_le_dec (to_uint8 (retry_count + 1))
                            (to_uint8 max_retries)) as [Hlt' | Hge'].
      * destruct (Hmore Hlt') as (v & reads & pulses & us & Hv & Hg & Hr' & Hus).
        exists v, (reads + (HX711_TIMEOUT_COUNT + 2))%nat, (1 + pulses)%nat,
               (FAILED_ATTEMPT_US + us).
        split; [exact Hv |]. split; [exact Hg |]. split.
        -- eapply driver_run_seq; [exact Hr | exact Hr' | | | |]; reflexivity.
        -- unfold FAILED_ATTEMPT_US in *. lia.
      * rewrite (Hdone Hge'). cbn [fst snd].
        exists INT32_MIN, (HX711_TIMEOUT_COUNT + 2)%nat, 1%nat,
               FAILED_ATTEMPT_US.
        split; [reflexivity |]. split; [now left |]. split; [exact Hr |].
        unfold FAILED_ATTEMPT_US. lia.
  - split; [reflexivity | intros; lia].
Qed.

(** The raw reads the loop enters: at least one when it runs at all, and
    no more than the attempts left. *)
Lemma retry_loop_attempts n :
  forall max_retries retry_count result w,
    (Z.to_nat (to_uint8 max_retries - retry_count) <= n)%nat ->
    let w' := snd (retry_loop hx711_read_improved max_retries retry_count
                              result w) in
    (entered F_hx711_read_improved w' <= entered F_hx711_read_improved w + n)%nat /\
    (retry_count < to_uint8 max_retries ->
     (entered F_hx711_read_improved w < entered F_hx711_read_improved w')%nat).
Proof.
  induction n as [| n IH]; intros max_retries retry_count result w Hn w';
    subst w'; rewrite retry_loop_step;
    destruct (Z.ltb_spec retry_count (to_uint8 max_retries)) as [Hlt | Hge].
  - exfalso. lia.
  - cbn [snd]. split; [lia | intros; lia].
  - pose proof (effect_read_improved w) as Hr.
    destruct (hx711_read_improved w) as [r w1]. cbn [fst snd] in Hr.
    pose proof (effect_entered F_hx711_read_improved _ _ _ Hr) as H1.
    cbn [filter fn_eqb length] in H1.
    destruct (is_valid r); cbn [snd].
    + split; [lia | intros; lia].
    + pose proof (effect_after_attempt r w w1 Hr) as Hf.
      pose proof (effect_entered F_hx711_read_improved _ _ _ Hf) as H2.
      assert (H2' : entered F_hx711_read_improved
                      (snd (arch_asm_delay_us 10000 (snd (recover r w1))))
                    = (entered F_hx711_read_improved w + 1)%nat).
      { rewrite H2. destruct (r =? INT32_MIN); reflexivity. }
      pose proof (uint8_next_measure _ _ _ Hlt Hn) as Hn'.
      destruct (IH max_retries (to_uint8 (retry_count + 1)) (Some r)
                   (snd (arch_asm_delay_us 10000 (snd (recover r w1)))) Hn')
        as [Hle _].
      rewrite H2' in Hle.
      assert (Hmono : (entered F_hx711_read_improved w + 1
                       <= entered F_hx711_read_improved
                            (snd (retry_loop hx711_read_improved max_retries
                                    (to_uint8 (retry_count + 1)) (Some r)
                                    (snd (arch_asm_delay_us 10000
                                            (snd (recover r w1)))))))%nat).
      { destruct (effect_retry_loop n max_retries
                    (to_uint8 (retry_count + 1)) (Some r)
                    (snd (arch_asm_delay_us 10000 (snd (recover r w1)))) Hn')
          as (cs & He & _).
        rewrite (effect_entered F_hx711_read_improved _ _ _ He), H2'. lia. }
      split; [lia | intros; lia].
  - cbn [snd]. split; [lia | intros; lia].
Qed.

Lemma run_retry_entry w : driver_run w (retry_entry w) 0 0 0 None.
Proof. apply run_enter. Qed.

(** X6. For 1 <= max_retries <= 255 and whatever the line does,
    [hx711_read_with_retry] returns INT32_MIN or a sample in
    [-2^23, 2^23 - 1] (never INT32_MAX), after at least one and at most
    max_retries raw reads. *)
Theorem X6_read_with_retry_result (max_retries : Z) (w : World) :
  1 <= max_retries <= 255 ->
  exists v,
    fst (hx711_read_with_retry max_retries w) = Some v /\
    (v = INT32_MIN \/ -8388608 <= v <= 8388607) /\
    v <> INT32_MAX /\
    (entered F_hx711_read_improved w
     < entered F_hx711_read_improved (snd (hx711_read_with_retry max_retries w))
     <= entered F_hx711_read_improved w + Z.to_nat max_retries)%nat.
Proof.
  intros H. unfold hx711_read_with_retry.
  rewrite read_with_retry_over_unfold.
  assert (Hm : (Z.to_nat (to_uint8 max_retries - 0) <= Z.to_nat max_retries)%nat)
    by (rewrite to_uint8_small by lia; lia).
  assert (Hlt : 0 < to_uint8 max_retries)
    by (rewrite to_uint8_small by lia; lia).
  destruct (retry_loop_run _ max_retries 0 None (retry_entry w) Hm)
    as [_ Hrun].
  destruct (Hrun Hlt) as (v & _ & _ & _ & Hv & Hg & _).
  destruct (retry_loop_attempts _ max_retries 0 None (retry_entry w) Hm)
    as [Hle Hge].
  specialize (Hge Hlt).
  assert (He : entered F_hx711_read_improved (retry_entry w)
               = entered F_hx711_read_improved w).
  { rewrite (effect_entered _ _ _ _ (effect_retry_entry w)).
    cbn [filter fn_eqb length]. lia. }
  rewrite He in Hle, Hge.
  exists v. split; [exact Hv |]. split; [exact Hg |]. split; [| lia].
  destruct Hg as [-> | Hr]; [discriminate | unfold INT32_MAX; lia].
Qed.

Lemma X6_read_with_retry_result_witness :
  exists v,
    fst (hx711_read_with_retry 3 (driver_world line_low)) = Some v /\
    (v = INT32_MIN \/ -8388608 <= v <= 8388607) /\
    v <> INT32_MAX.
Proof.
  destruct (X6_read_with_retry_result 3 (driver_world line_low))
    as (v & Hv & Hg & Hne & _); [lia |].
  exists v. split; [exact Hv |]. split; [exact Hg | exact Hne].
Defined.

(** X7. For 1 <= max_retries <= 255 and whatever the line does,
    [hx711_read_with_retry] returns with the clock line low (the chip is
    never left in power-down) after at most 161,160 microseconds of
    busy-wait per allowed attempt. *)
Theorem X7_read_with_retry_time (max_retries : Z) (w : World) :
  1 <= max_retries <= 255 ->
  sck_level (snd (hx711_read_with_retry max_retries w)) = Some false /\
  elapsed w <= elapsed (snd (hx711_read_with_retry max_retries w))
  <= elapsed w + FAILED_ATTEMPT_US * max_retries.
Proof.
  intros H. unfold hx711_read_with_retry.
  rewrite read_with_retry_over_unfold.
  assert (Hm : (Z.to_nat (to_uint8 max_retries - 0) <= Z.to_nat max_retries)%nat)
    by (rewrite to_uint8_small by lia; lia).
  assert (Hlt : 0 < to_uint8 max_retries)
    by (rewrite to_uint8_small by lia; lia).
  destruct (retry_loop_run _ max_retries 0 None (retry_entry w) Hm)
    as [_ Hrun].
  destruct (Hrun Hlt) as (v & reads & pulses & us & _ & _ & Hr & Hus).
  assert (Hall : driver_run w
            (snd (retry_loop hx711_read_improved max_retries 0 None
                    (retry_entry w))) reads pulses us (Some false)).
  { eapply driver_run_seq; [apply run_retry_entry | exact Hr | | | |];
      try reflexivity; lia. }
  destruct (driver_run_observed _ _ _ _ _ _ Hall) as (_ & _ & _ & He & Hs).
  rewrite He, Hs. rewrite Z2Nat.id in Hus by lia.
  split; [reflexivity | lia].
Qed.

Lemma X7_read_with_retry_time_witness :
  sck_level (snd (hx711_read_with_retry 3 (driver_world line_stuck_high)))
  = Some false /\
  elapsed (driver_world line_stuck_high)
  <= elapsed (snd (hx711_read_with_retry 3 (driver_world line_stuck_high)))
  <= elapsed (driver_world line_stuck_high) + FAILED_ATTEMPT_US * 3.
Proof.
  apply (X7_read_with_retry_time 3 (driver_world line_stuck_high)). lia.
Defined.

(** *** The connectivity test *)

Lemma run_test_connectivity w :
  driver_run w (snd (hx711_test_connectivity w)) 4 1 102160 (Some false).
Proof.
  unfold hx711_test_connectivity.
  eapply driver_run_bind; [apply run_set_inactive | intros _ w1 | | | |].
  - eapply driver_run_bind; [apply run_delay | intros _ w2 | | | |].
    + eapply driver_run_bind; [apply run_get | intros b0 w3 | | | |].
      * eapply driver_run_bind; [apply run_power_down | intros _ w4 | | | |].
        -- eapply driver_run_bind; [apply run_delay | intros _ w5 | | | |].
           ++ eapply driver_run_bind; [apply run_get | intros b1 w6 | | | |].
              ** eapply driver_run_bind;
                   [apply run_power_up | intros _ w7 | | | |].
                 --- eapply driver_run_bind;
                       [apply run_delay | intros _ w8 | | | |].
                     +++ eapply driver_run_bind;
                           [apply run_get | intros b2 w9 | | | |].
                         *** apply run_ret.
                         *** reflexivity.
                         *** reflexivity.
                         *** reflexivity.
                         *** reflexivity.
                     +++ reflexivity.
                     +++ reflexivity.
                     +++ reflexivity.
                     +++ reflexivity.
                 --- reflexivity.
                 --- reflexivity.
                 --- reflexivity.
                 --- reflexivity.
              ** reflexivity.
              ** reflexivity.
              ** reflexivity.
              ** reflexivity.
           ++ reflexivity.
           ++ reflexivity.
           ++ reflexivity.
           ++ reflexivity.
        -- reflexivity.
        -- reflexivity.
        -- reflexivity.
        -- reflexivity.
      * reflexivity.
      * reflexivity.
      * reflexivity.
      * reflexivity.
    + reflexivity.
    + reflexivity.
    + reflexivity.
    + reflexivity.
  - reflexivity.
  - reflexivity.
  - reflexivity.
  - reflexivity.
Qed.

Lemma test_connectivity_value w :
  fst (hx711_test_connectivity w) = dout_in w (3 + n_dout w).
Proof.
  destruct w as [d ks ti nd ns nt lg at' ce av].
  cbv beta iota zeta delta
    [hx711_test_connectivity hx711_power_down hx711_power_up HX711_DEBUG
     bind ret emit enter GPIO_SetActive GPIO_SetInactive GPIO_GetPinStatus
     arch_asm_delay_us fst snd dout_in n_dout Nat.add].
  now destruct (d (S (S (S nd)))).
Qed.

(** X8. The connectivity test answers with the level of DOUT on its
    fourth read of the line (the one made 1 ms after the power-up; the
    power-up itself makes the third): the samples taken at the start and in
    power-down have no part in the answer.  The test makes 4 reads, drives
    one rising clock edge (the power-down), busy-waits 102,160 microseconds
    and leaves the clock low. *)
Theorem X8_test_connectivity_answer (w : World) :
  fst (hx711_test_connectivity w) = dout_in w (3 + n_dout w) /\
  polls (snd (hx711_test_connectivity w)) = polls w + 4 /\
  clock_pulses (snd (hx711_test_connectivity w)) = (1 + clock_pulses w)%nat /\
  elapsed (snd (hx711_test_connectivity w)) = elapsed w + 102160 /\
  sck_level (snd (hx711_test_connectivity w)) = Some false.
Proof.
  split; [apply test_connectivity_value |].
  destruct (driver_run_observed _ _ _ _ _ _ (run_test_connectivity w))
    as (Hn & _ & Hp & He & Hs).
  unfold polls. rewrite Hn, Hp, He, Hs.
  split; [lia |]. split; [reflexivity |]. split; [lia | reflexivity].
Qed.

(** X9. On a line that stays high (no chip pulling it low) the
    connectivity test answers true, and the raw read made after it times
    out: the test passes where no sample can be read. *)
Theorem X9_test_connectivity_stuck_high (w : World) :
  stuck_high w ->
  fst (hx711_test_connectivity w) = true /\
  fst (hx711_read_improved (snd (hx711_test_connectivity w))) = INT32_MIN.
Proof.
  intros H. split.
  - rewrite test_connectivity_value. apply H.
  - apply read_improved_stuck_high.
    destruct (run_test_connectivity w) as (l & E & _).
    rewrite E. intros k. unfold advance. cbn [dout_in n_dout].
    rewrite Nat.add_assoc. apply H.
Qed.

Lemma X9_test_connectivity_stuck_high_witness :
  fst (hx711_test_connectivity (driver_world line_stuck_high)) = true /\
  fst (hx711_read_improved
         (snd (hx711_test_connectivity (driver_world line_stuck_high))))
  = INT32_MIN.
Proof.
  apply (X9_test_connectivity_stuck_high (driver_world line_stuck_high)).
  apply stuck_high_driver_world.
Defined.

(** *** The payload of the notification *)





(** *** The callback, event by event *)

Section CallbackTrace.

Variable EASY_TIMER_INVALID_TIMER : Z.
Variable APP_CONNECTED : Z.

Let cb := app_adcval1_timer_cb_handler_improved
            EASY_TIMER_INVALID_TIMER APP_CONNECTED.
Let after_read := cb_after_read EASY_TIMER_INVALID_TIMER APP_CONNECTED.

(** What the callback logs after the read, newest first: the timer request
    if the connection is up, the query of the state, the disposal of the
    message, and before them the events [li] of [hx711_init] if it was
    called. *)
Lemma after_read_log v w :
  let s := ke_state_in w (n_state w) in
  let w' := snd (after_read v w) in
  exists li k,
    forallb is_driver_event li = true /\
    0 <= elapsed_of li <= 600000 /\
    (last_sck li = None \/ last_sck li = Some false) /\
    (is_valid v = true -> li = []) /\
    dout_in w' = dout_in w /\
    n_dout w' = (k + n_dout w)%nat /\
    log w' =
    (if s =? APP_CONNECTED then [EvTimer (timer_in w (n_timer w))] else [])
    ++ EvStateGet s
    :: (if is_valid v
        then [EvMsgSend (bswap32 v); EvAttSet (bswap32 v)]
        else [EvMsgFree])
    ++ li ++ log w.
Proof.
  intros s w'. subst s w' after_read. unfold cb_after_read.
  destruct (is_valid v) eqn:Hv; unfold is_valid in Hv;
    rewrite <- negb_orb in Hv;
    [rewrite negb_true_iff in Hv | rewrite negb_false_iff in Hv];
    rewrite Hv; destruct w as [d ks ti nd ns nt lg at' ce av]; run_prims.
  - exists [], 0%nat.
    destruct (ks ns =? APP_CONNECTED); run_prims;
      (split; [reflexivity |]); (split; [cbn; lia |]);
      (split; [now left |]); (split; [reflexivity |]);
      (split; [reflexivity |]); split; reflexivity.
  - destruct (max_consecutive_errors <=? to_uint8 (ce + 1)).
    + match goal with
      | |- context [hx711_init ?w2] =>
          destruct (init_run w2)
            as (j & Hj & _ & _ & (l & E & Hd & _ & Hu & Hs));
          destruct (hx711_init w2) as [u w3]; cbn [snd] in E; subst w3
      end.
      exists l, (j + 2)%nat. pose proof timeout_count_Z as HT.
      run_prims.
      destruct (ks ns =? APP_CONNECTED); run_prims;
        (split; [exact Hd |]); (split; [rewrite Hu; lia |]);
        (split; [now right |]); (split; [discriminate |]);
        (split; [reflexivity |]); split; reflexivity.
    + exists [], 0%nat.
      destruct (ks ns =? APP_CONNECTED); run_prims;
        (split; [reflexivity |]); (split; [cbn; lia |]);
        (split; [now left |]); (split; [discriminate |]);
        (split; [reflexivity |]); split; reflexivity.
Qed.

(** One expiry of the timer, event by event: the allocation, the events
    [lr] of the retrying read, and what [after_read_log] says. *)
Lemma cb_trace w :
  let s := ke_state_in w (n_state w) in
  exists hx_val w1 w' lr li,
    hx711_read_with_retry 3 (cb_entry w) = (Some hx_val, w1) /\
    cb w = Some w' /\
    timeout_or_sample hx_val /\
    forallb is_driver_event lr = true /\
    0 <= elapsed_of lr <= 483480 /\
    last_sck lr = Some false /\
    forallb is_driver_event li = true /\
    0 <= elapsed_of li <= 600000 /\
    (last_sck li = None \/ last_sck li = Some false) /\
    (is_valid hx_val = true -> li = []) /\
    dout_in w' = dout_in w /\
    (n_dout w <= n_dout w')%nat /\
    log w' =
    (if s =? APP_CONNECTED then [EvTimer (timer_in w (n_timer w))] else [])
    ++ EvStateGet s
    :: (if is_valid hx_val
        then [EvMsgSend (bswap32 hx_val); EvAttSet (bswap32 hx_val)]
        else [EvMsgFree])
    ++ li ++ lr
    ++ EvMsgAlloc :: EvEnter F_app_adcval1_timer_cb_handler_improved :: log w.
Proof.
  intros s. subst s.
  destruct (cb_entry_fields w)
    as (Hlog & _ & _ & _ & Hk0 & Hti0 & Hns0 & Hnt0).
  assert (Hm : (Z.to_nat (to_uint8 3 - 0) <= 3)%nat) by (cbn; lia).
  destruct (retry_loop_run 3 3 0 None (retry_entry (cb_entry w)) Hm)
    as [_ Hrun].
  destruct (Hrun ltac:(cbn; lia))
    as (v & reads & pulses & us & Hv & Hg & Hr & Hus).
  assert (Hall : driver_run (cb_entry w)
            (snd (hx711_read_with_retry 3 (cb_entry w)))
            reads pulses us (Some false)).
  { unfold hx711_read_with_retry. rewrite read_with_retry_over_unfold.
    eapply driver_run_seq; [apply run_retry_entry | exact Hr | | | |];
      try reflexivity; lia. }
  rewrite <- (read_with_retry_over_unfold hx711_read_improved 3 (cb_entry w))
    in Hv.
  change (hx711_read_with_retry_over hx711_read_improved 3 (cb_entry w))
    with (hx711_read_with_retry 3 (cb_entry w)) in Hv.
  unfold cb. rewrite cb_unfold.
  destruct (hx711_read_with_retry 3 (cb_entry w)) as [r w1].
  cbn [fst snd] in *. subst r.
  destruct Hall as (lr & E & Hd & _ & Hu & Hs).
  destruct (after_read_log v w1)
    as (li & k & Hdi & Hui & Hsi & Hnil & Hdout & Hn & Hl).
  exists v, w1, (snd (cb_after_read EASY_TIMER_INVALID_TIMER
                                    APP_CONNECTED v w1)), lr, li.
  split; [reflexivity |]. split; [reflexivity |]. split; [exact Hg |].
  split; [exact Hd |]. split; [unfold FAILED_ATTEMPT_US in Hus; lia |].
  split; [exact Hs |]. split; [exact Hdi |]. split; [exact Hui |].
  split; [exact Hsi |]. split; [exact Hnil |].
  fold after_read. rewrite Hdout, Hn, Hl. subst w1. unfold advance.
  cbn [dout_in n_dout log ke_state_in n_state timer_in n_timer].
  assert (Hd0 : dout_in (cb_entry w) = dout_in w) by reflexivity.
  assert (Hn0 : n_dout (cb_entry w) = n_dout w) by reflexivity.
  rewrite Hlog, Hk0, Hti0, Hns0, Hnt0, Hd0, Hn0.
  split; [reflexivity |]. split; [lia | reflexivity].
Qed.

Lemma no_sdk_in_driver_log (p : event -> bool) l :
  (forall e, p e = true -> is_driver_event e = false) ->
  forallb is_driver_event l = true ->
  length (filter p l) = 0%nat.
Proof. intros Hp Hl. now rewrite (driver_events_filter p l Hp Hl). Qed.

(** X11. Every expiry of the timer allocates exactly one message and
    disposes of it exactly once: it is sent, after one write of the
    attribute, when the read gave a sample, and freed when the read gave a
    sentinel; never both, never neither. *)
Theorem X11_cb_message_disposed_once (w : World) :
  exists hx_val w1 w',
    hx711_read_with_retry 3 (cb_entry w) = (Some hx_val, w1) /\
    cb w = Some w' /\
    count is_msg_alloc w' = S (count is_msg_alloc w) /\
    count is_msg_send w'
    = ((if is_valid hx_val then 1 else 0) + count is_msg_send w)%nat /\
    count is_att_set w'
    = ((if is_valid hx_val then 1 else 0) + count is_att_set w)%nat /\
    count is_msg_free w'
    = ((if is_valid hx_val then 0 else 1) + count is_msg_free w)%nat.
Proof.
  destruct (cb_trace w)
    as (v & w1 & w' & lr & li & Hr & Hcb & _ & Hdr & _ & _ & Hdi & _ & _ & _
        & _ & _ & Hl).
  exists v, w1, w'. split; [exact Hr |]. split; [exact Hcb |].
  unfold count. rewrite Hl.
  destruct (ke_state_in w (n_state w) =? APP_CONNECTED);
    destruct (is_valid v);
    cbn [filter is_msg_alloc is_msg_send is_att_set is_msg_free app length];
    rewrite !filter_app, !length_app;
    rewrite !(no_sdk_in_driver_log _ li), !(no_sdk_in_driver_log _ lr)
      by (try assumption; intros e; destruct e; cbn; congruence);
    cbn [filter is_msg_alloc is_msg_send is_att_set is_msg_free app length
         Nat.add];
    (split; [reflexivity |]); (split; [reflexivity |]); split; reflexivity.
Qed.

(** X12. When the read gives a sample the callback stores it in
    [adc_val_1], writes the byte-swapped sample to the attribute, then sends
    the same word in the message, then asks for the connection state; when
    the read gives a sentinel [adc_val_1] keeps its value. *)
Theorem X12_cb_sample_published (w : World) :
  exists hx_val w1 w',
    hx711_read_with_retry 3 (cb_entry w) = (Some hx_val, w1) /\
    cb w = Some w' /\
    (is_valid hx_val = true ->
     adc_val_1 w' = hx_val /\
     log w' =
     (if ke_state_in w (n_state w) =? APP_CONNECTED
      then [EvTimer (timer_in w (n_timer w))] else [])
     ++ [EvStateGet (ke_state_in w (n_state w));
         EvMsgSend (bswap32 hx_val); EvAttSet (bswap32 hx_val)]
     ++ log w1) /\
    (is_valid hx_val = false -> adc_val_1 w' = adc_val_1 w).
Proof.
  destruct (cb_read EASY_TIMER_INVALID_TIMER APP_CONNECTED w)
    as (v & w1 & Hr & Hcb & _ & _ & Hval & _ & _ & Hk & Hti).
  exists v, w1, (snd (after_read v w1)).
  split; [exact Hr |]. split; [exact Hcb |]. split.
  - intros Hv.
    destruct (cb_after_read_valid EASY_TIMER_INVALID_TIMER APP_CONNECTED
                v w1 Hv) as (_ & _ & Ha & _).
    split; [exact Ha |].
    destruct (after_read_log v w1) as (li & k & _ & _ & _ & Hnil & _ & _ & Hl).
    rewrite Hl, (Hnil Hv), Hv, Hk, Hti. reflexivity.
  - intros Hv.
    destruct (cb_after_read_failed EASY_TIMER_INVALID_TIMER APP_CONNECTED
                v w1 Hv) as (_ & _ & Ha & _).
    fold after_read in Ha. now rewrite Ha.
Qed.

(** X13. While the connection is up the callback always reschedules
    itself, after a sample and after a failed read alike: it asks for
    exactly one timer and stores the handle it is given. *)
Theorem X13_cb_reschedules_while_connected (w : World) :
  ke_state_in w (n_state w) = APP_CONNECTED ->
  exists w',
    cb w = Some w' /\
    timer_requests w' = S (timer_requests w) /\
    adc_timer w' = timer_in w (n_timer w).
Proof.
  intros Hs. apply Z.eqb_eq in Hs.
  destruct (cb_read EASY_TIMER_INVALID_TIMER APP_CONNECTED w)
    as (v & w1 & Hr & Hcb & _ & _ & _ & _ & Htr & Hk & Hti).
  exists (snd (after_read v w1)). split; [exact Hcb |].
  destruct (is_valid v) eqn:Hv.
  - destruct (cb_after_read_valid EASY_TIMER_INVALID_TIMER APP_CONNECTED
                v w1 Hv) as (_ & _ & _ & Ha & Hq).
    fold after_read in Ha, Hq.
    rewrite Hk, Hs in Ha, Hq. rewrite Hq, Ha, Htr, Hti. split; [lia | reflexivity].
  - destruct (cb_after_read_failed EASY_TIMER_INVALID_TIMER APP_CONNECTED
                v w1 Hv) as (_ & _ & _ & Ha & Hq).
    fold after_read in Ha, Hq.
    rewrite Hk, Hs in Ha, Hq. rewrite Hq, Ha, Htr, Hti. split; [lia | reflexivity].
Qed.

(** X14. Whatever the line and the connection do, one expiry of the timer
    returns with the clock line low after at most 1,083,480 microseconds of
    busy-wait: three failed attempts and one [hx711_init]. *)
Theorem X14_cb_blocking_time (w : World) :
  exists w',
    cb w = Some w' /\
    sck_level w' = Some false /\
    elapsed w <= elapsed w' <= elapsed w + 1083480.
Proof.
  destruct (cb_trace w)
    as (v & w1 & w' & lr & li & _ & Hcb & _ & _ & Hur & Hsr & _ & Hui & Hsi
        & _ & _ & _ & Hl).
  exists w'. split; [exact Hcb |].
  unfold sck_level, elapsed. rewrite Hl.
  rewrite !elapsed_of_app, !last_sck_app.
  destruct (ke_state_in w (n_state w) =? APP_CONNECTED);
    destruct (is_valid v);
    cbn [elapsed_of last_sck app then_sck];
    rewrite !last_sck_app, Hsr; cbn [then_sck];
    (split; [destruct Hsi as [-> | ->]; reflexivity |]);
    rewrite !elapsed_of_app; cbn [elapsed_of]; lia.
Qed.

(** One expiry on a line that stays high. *)
Lemma cb_failed_cycle w :
  stuck_high w ->
  exists w',
    cb w = Some w' /\
    stuck_high w' /\
    consecutive_errors w'
    = (if max_consecutive_errors <=? to_uint8 (consecutive_errors w + 1)
       then 0 else to_uint8 (consecutive_errors w + 1)) /\
    entered F_hx711_init w'
    = (entered F_hx711_init w +
       if (max_consecutive_errors <=? to_uint8 (consecutive_errors w + 1))%Z
       then 1 else 0)%nat.
Proof.
  intros H.
  assert (Hmin : fst (hx711_read_with_retry 3 (cb_entry w)) = Some INT32_MIN).
  { apply read_with_retry_stuck_high; [lia |]. intros k. apply H. }
  destruct (cb_trace w)
    as (v' & w1' & w' & lr & li & _ & Hcb' & _ & _ & _ & _ & _ & _ & _
        & _ & Hd & Hn & _).
  destruct (cb_read EASY_TIMER_INVALID_TIMER APP_CONNECTED w)
    as (v & w1 & Hr & Hcb & Hce & _ & _ & Hi & _).
  rewrite Hr in Hmin. cbn [fst] in Hmin.
  assert (Hv : v = INT32_MIN) by congruence. subst v.
  fold cb in Hcb. rewrite Hcb in Hcb'.
  assert (Hw : w' = snd (cb_after_read EASY_TIMER_INVALID_TIMER APP_CONNECTED
                           INT32_MIN w1)) by congruence.
  fold after_read in Hw. subst w'.
  exists (snd (after_read INT32_MIN w1)). split; [exact Hcb |].
  split.
  - intros k. rewrite Hd.
    replace (k + n_dout (snd (after_read INT32_MIN w1)))%nat
      with ((k + (n_dout (snd (after_read INT32_MIN w1)) - n_dout w))
            + n_dout w)%nat by lia.
    apply H.
  - destruct (cb_after_read_failed EASY_TIMER_INVALID_TIMER APP_CONNECTED
                INT32_MIN w1 eq_refl) as (Hc & He & _).
    fold after_read in Hc, He. rewrite Hc, He, Hce, Hi. split; reflexivity.
Qed.

(** X15. On a line that stays high, n expiries of the timer in a row, from
    a counter c below 5, leave the counter at (c + n) mod 5 and have
    entered [hx711_init] exactly (c + n) / 5 times: one reinitialisation
    for every fifth consecutive failure. *)
Theorem X15_failed_cycles (n : nat) (w : World) :
  stuck_high w ->
  0 <= consecutive_errors w < 5 ->
  exists w',
    cycles EASY_TIMER_INVALID_TIMER APP_CONNECTED n w = Some w' /\
    consecutive_errors w' = (consecutive_errors w + Z.of_nat n) mod 5 /\
    Z.of_nat (entered F_hx711_init w')
    = Z.of_nat (entered F_hx711_init w)
      + (consecutive_errors w + Z.of_nat n) / 5.
Proof.
  revert w. induction n as [| n IH]; intros w H Hc.
  - exists w. split; [reflexivity |].
    rewrite Z.add_0_r, Z.mod_small, Z.div_small by lia. split; lia.
  - destruct (cb_failed_cycle w H) as (w1 & Hcb & H1 & Hc1 & He1).
    rewrite (to_uint8_small (consecutive_errors w + 1)) in Hc1, He1 by lia.
    unfold max_consecutive_errors in Hc1, He1.
    assert (Hr1 : 0 <= consecutive_errors w1 < 5)
      by (rewrite Hc1; destruct (Z.leb_spec 5 (consecutive_errors w + 1)); lia).
    destruct (IH w1 H1 Hr1) as (w' & Hcy & Hc' & He').
    exists w'. cbn [cycles]. fold cb. rewrite Hcb.
    split; [exact Hcy |].
    rewrite Hc', He', He1, Hc1, Nat2Z.inj_add, Nat2Z.inj_succ.
    destruct (Z.leb_spec 5 (consecutive_errors w + 1));
      split; Z.div_mod_to_equations; lia.
Qed.

End CallbackTrace.

Lemma X12_cb_sample_published_witness :
  exists w',
    app_adcval1_timer_cb_handler_improved 0 3 (cb_world line_low 3 7 4)
    = Some w' /\
    adc_val_1 w' = 0.
Proof.
  destruct (X12_cb_sample_published 0 3 (cb_world line_low 3 7 4))
    as (v & w1 & w' & Hr & Hcb & Hvalid & _).
  assert (Hv : v = 0).
  { apply (f_equal fst) in Hr. cbn [fst] in Hr.
    assert (E : fst (hx711_read_with_retry 3
                       (cb_entry (cb_world line_low 3 7 4))) = Some 0)
      by (vm_compute; reflexivity).
    congruence. }
  subst v. destruct (Hvalid eq_refl) as [Ha _].
  exists w'. split; [exact Hcb | exact Ha].
Defined.

Lemma X13_cb_reschedules_while_connected_witness :
  exists w',
    app_adcval1_timer_cb_handler_improved 0 3 (cb_world line_stuck_high 3 7 4)
    = Some w' /\
    timer_requests w' = S (timer_requests (cb_world line_stuck_high 3 7 4)) /\
    adc_timer w' = 7.
Proof.
  apply (X13_cb_reschedules_while_connected 0 3
           (cb_world line_stuck_high 3 7 4)).
  reflexivity.
Defined.

Lemma X15_failed_cycles_witness :
  exists w',
    cycles 0 3 12 (cb_world line_stuck_high 3 7 0) = Some w' /\
    consecutive_errors w' = 2 /\
    Z.of_nat (entered F_hx711_init w') = 2.
Proof.
  destruct (X15_failed_cycles 0 3 12 (cb_world line_stuck_high 3 7 0))
    as (w' & Hcy & Hc & He).
  - intros k. reflexivity.
  - cbn. lia.
  - exists w'. split; [exact Hcy |]. split; [exact Hc | exact He].
Defined.

(** *** The retry loop on a communication error *)

(** X16. For 1 <= max_retries <= 255 and any raw read: if every attempt
    returns INT32_MAX, [hx711_read_with_retry] makes all max_retries
    attempts and returns INT32_MAX, and a failed attempt consists of the
    raw read and the 10 ms pause only: the power cycle is kept for
    INT32_MIN. *)
Theorem X16_retry_on_comm_error (raw_read : M Z) (max_retries : Z)
    (w : World) :
  1 <= max_retries <= 255 ->
  (forall j, (j < Z.to_nat max_retries)%nat ->
             attempt_result raw_read j (retry_entry w) = INT32_MAX) ->
  hx711_read_with_retry_over raw_read max_retries w =
  (Some INT32_MAX,
   after_failures raw_read (Z.to_nat max_retries) (retry_entry w)) /\
  (forall w0, fst (raw_read w0) = INT32_MAX ->
              failed_attempt raw_read w0
              = snd (arch_asm_delay_us 10000 (snd (raw_read w0)))).
Proof.
  intros H Hall. split.
  - rewrite read_with_retry_over_unfold.
    rewrite (retry_loop_exhausted raw_read (Z.to_nat max_retries)).
    + destruct (Z.to_nat max_retries) as [| n'] eqn:E; [lia |].
      rewrite Hall by lia. reflexivity.
    + lia.
    + rewrite Z2Nat.id, to_uint8_small by lia. lia.
    + intros j Hj. now rewrite Hall.
  - intros w0 Hmax. unfold failed_attempt.
    destruct (raw_read w0) as [r w1]. cbn [fst snd] in *. subst r.
    reflexivity.
Qed.

Lemma X16_retry_on_comm_error_witness :
  hx711_read_with_retry_over raw_read_comm_error 2 (driver_world line_low) =
  (Some INT32_MAX,
   after_failures raw_read_comm_error (Z.to_nat 2)
     (retry_entry (driver_world line_low))).
Proof.
  apply (X16_retry_on_comm_error raw_read_comm_error 2 (driver_world line_low)).
  - lia.
  - intros j Hj. change (Z.to_nat 2) with 2%nat in Hj.
    destruct j as [| [| j]]; [reflexivity | reflexivity | exfalso; lia].
Defined.
